(** * Sleep Olympics API server: bootstrap and request pipeline

    A shallow embedding of [server/index.js]: the start-up sequence
    ([loadEnv], [initializeFirebaseAdmin], [startServer]) as a small
    state-and-exit monad over the process state, and the request pipeline
    the start-up builds (the layer stack of the Express application) as a
    function from a request to a response.

    The modules [index.js] imports but which are not part of the analysed
    sources (the security and logging middleware, the route factories, the
    [firestoreUtils] factory, the Firebase client) are parameters of the
    development, gathered in the record [Externals].  What Express does
    on its own (how the router walks the stack and reads the argument of
    [next], which codes [res.status] accepts, the last resort that
    answers what the stack leaves unanswered) follows Express 5, the
    version [package.json] asks for. *)

From Stdlib Require Import ZArith Lia List Bool Ascii String.
From stdpp Require Import base option list strings gmap.
Import ListNotations.

Set Warnings "-register-all".
Local Open Scope string_scope.
Local Open Scope list_scope.
Local Open Scope Z_scope.

(** ** JavaScript values *)

Module Js.

(** The values the program passes around.  Numbers are the integers the
    program uses (status codes, ports, exit codes); objects keep their
    properties in insertion order, as [Object.keys] and the JSON writer
    observe it; a function may carry properties of its own. *)
Inductive Val : Type :=
| Undefined
| Null
| Bool (b : bool)
| Num (n : Z)
| Str (s : string)
| Arr (items : list Val)
| Obj (props : list (string * Val))
| Fun (props : list (string * Val)).

(** ToBoolean: [undefined], [null], [false], [0] and [''] are falsy. *)
Definition truthy (v : Val) : bool :=
  match v with
  | Undefined | Null => false
  | Bool b => b
  | Num n => negb (n =? 0)%Z
  | Str s => negb (String.eqb s "")
  | Arr _ | Obj _ | Fun _ => true
  end.

(** [a || b] and [a && b] return one of their operands. *)
Definition or (a b : Val) : Val := if truthy a then a else b.
Definition and (a b : Val) : Val := if truthy a then b else a.

(** [typeof v]. *)
Definition typeof (v : Val) : string :=
  match v with
  | Undefined => "undefined"
  | Null | Arr _ | Obj _ => "object"
  | Bool _ => "boolean"
  | Num _ => "number"
  | Str _ => "string"
  | Fun _ => "function"
  end.

Fixpoint assoc (k : string) (props : list (string * Val)) : Val :=
  match props with
  | [] => Undefined
  | (k', v) :: rest => if String.eqb k' k then v else assoc k rest
  end.

(** [v.k] for a value that is neither [undefined] nor [null] (on those the
    access throws; every access in [index.js] is on a truthy value).  The
    names the program reads ([queryDocuments], [statusCode], [message],
    [stack]) are own properties only: a primitive has none of them. *)
Definition get (v : Val) (k : string) : Val :=
  match v with
  | Obj props | Fun props => assoc k props
  | _ => Undefined
  end.

(** Strings, numbers and booleans. *)
Definition is_primitive (v : Val) : bool :=
  match v with
  | Bool _ | Num _ | Str _ => true
  | _ => false
  end.

(** [v === s] for a string literal [s]. *)
Definition is_str (v : Val) (s : string) : bool :=
  match v with
  | Str t => String.eqb t s
  | _ => false
  end.

(** [o.k = v] on an object under construction: the property is replaced in
    place when it exists and appended otherwise. *)
Fixpoint put (k : string) (v : Val) (props : list (string * Val))
  : list (string * Val) :=
  match props with
  | [] => [(k, v)]
  | (k', v') :: rest =>
      if String.eqb k' k then (k, v) :: rest else (k', v') :: put k v rest
  end.

Definition has_key (k : string) (props : list (string * Val)) : bool :=
  existsb (fun kv => String.eqb (fst kv) k) props.

(** The JSON writer ([JSON.stringify], which [res.json] applies) leaves
    out the properties whose value is [undefined] or a function. *)
Definition serialisable (v : Val) : bool :=
  match v with
  | Undefined | Fun _ => false
  | _ => true
  end.

(** Property [k] of the object appears in its JSON text. *)
Definition written (k : string) (props : list (string * Val)) : bool :=
  has_key k props && serialisable (assoc k props).

End Js.

(** ** The process environment *)

(** [process.env]: every value is a string; a name that is not set reads
    as [undefined]. *)
Definition getenv (env : gmap string string) (k : string) : Js.Val :=
  match env !! k with
  | Some s => Js.Str s
  | None => Js.Undefined
  end.

(** [process.env.NODE_ENV === 'production'] *)
Definition is_production (env : gmap string string) : bool :=
  Js.is_str (getenv env "NODE_ENV") "production".

(** [dotenv.config()]: the entries of the [.env] file are added to the
    environment; a name that is already set keeps its value. *)
Definition dotenv_config (file env : gmap string string) : gmap string string :=
  env ∪ file.

(** ** Dates: [new Date().toISOString()] *)

Module Date.

(** A time value is a number of milliseconds since 1970-01-01T00:00:00Z. *)
Definition msPerDay : Z := 86400000.
Definition daysPerEra : Z := 146097.

(** The calendar date of a day of a 400-year cycle that starts on a
    1 March: year of the cycle (counted from March), month, day. *)
Definition civil_of_doe (doe : Z) : Z * Z * Z :=
  let yoe := (doe - doe / 1460 + doe / 36524 - doe / 146096) / 365 in
  let doy := doe - (365 * yoe + yoe / 4 - yoe / 100) in
  let mp := (5 * doy + 2) / 153 in
  let d := doy - (153 * mp + 2) / 5 + 1 in
  let m := if mp <? 10 then mp + 3 else mp - 9 in
  ((if m <=? 2 then yoe + 1 else yoe), m, d).

(** The proleptic Gregorian date of day number [z] (days since
    1970-01-01, negative before it). *)
Definition civil_from_days (z : Z) : Z * Z * Z :=
  let z' := z + 719468 in
  let '(y, m, d) := civil_of_doe (z' mod daysPerEra) in
  (y + 400 * (z' / daysPerEra), m, d).

Definition digit (n : Z) : ascii := ascii_of_nat (48 + Z.to_nat n).

(** [n] in [k] decimal digits, most significant first. *)
Fixpoint pad (k : nat) (n : Z) : string :=
  match k with
  | O => ""
  | S k' =>
      String (digit ((n / 10 ^ Z.of_nat k') mod 10)) (pad k' (n mod 10 ^ Z.of_nat k'))
  end.

(** Years 0 to 9999 are written in four digits, the others with a sign
    and six digits. *)
Definition year_string (y : Z) : string :=
  if (0 <=? y) && (y <=? 9999) then pad 4 y
  else if y <? 0 then "-" +:+ pad 6 (- y)
  else "+" +:+ pad 6 y.

Definition time_string (msod : Z) : string :=
  pad 2 (msod / 3600000) +:+ ":" +:+ pad 2 (msod / 60000 mod 60) +:+ ":"
  +:+ pad 2 (msod / 1000 mod 60) +:+ "." +:+ pad 3 (msod mod 1000).

Definition toISOString (t : Z) : string :=
  let '(y, m, d) := civil_from_days (t / msPerDay) in
  year_string y +:+ "-" +:+ pad 2 m +:+ "-" +:+ pad 2 d
  +:+ "T" +:+ time_string (t mod msPerDay) +:+ "Z".

(** The year of the cycle and the day of that year, as [civil_of_doe]
    computes them, and the month and day it derives from them. *)
Definition yoe_of (doe : Z) : Z :=
  (doe - doe / 1460 + doe / 36524 - doe / 146096) / 365.
Definition doy_of (doe : Z) : Z :=
  doe - (365 * yoe_of doe + yoe_of doe / 4 - yoe_of doe / 100).
Definition month_day (yoe doy : Z) : Z * Z * Z :=
  let mp := (5 * doy + 2) / 153 in
  let d := doy - (153 * mp + 2) / 5 + 1 in
  let m := if mp <? 10 then mp + 3 else mp - 9 in
  ((if m <=? 2 then yoe + 1 else yoe), m, d).

(** A date as one number, ordered as the dates are. *)
Definition datekey (ymd : Z * Z * Z) : Z :=
  let '(y, m, d) := ymd in (y * 16 + m) * 32 + d.

(** The first and the last instant whose year is written in four digits:
    0000-01-01T00:00:00.000Z and 9999-12-31T23:59:59.999Z. *)
Definition min_time : Z := -62167219200000.
Definition max_time : Z := 253402300799999.

End Date.

(** ** Strings: [s.split(',')] and decimal numerals *)

(** [s.split(sep)] for a one-character separator: the pieces between the
    separators, empty pieces included; never the empty list. *)
Fixpoint split_on (sep : ascii) (s : string) : list string :=
  match s with
  | EmptyString => [""]
  | String c rest =>
      if Ascii.eqb c sep then "" :: split_on sep rest
      else match split_on sep rest with
           | [] => [String c ""]
           | w :: ws => String c w :: ws
           end
  end.

Fixpoint digits_of (fuel : nat) (n : Z) (acc : string) : string :=
  match fuel with
  | O => acc
  | S fuel' =>
      let acc' := String (Date.digit (n mod 10)) acc in
      if n <? 10 then acc' else digits_of fuel' (n / 10) acc'
  end.

(** The decimal numeral of an integer, as [String(n)] writes it. *)
Definition decimal (n : Z) : string :=
  if n <? 0 then "-" +:+ digits_of (S (Z.to_nat (Z.log2 (- n)))) (- n) ""
  else digits_of (S (Z.to_nat (Z.log2 n))) n "".

Module JsString.

(** [String(v)], the conversion a template literal and [res.header] apply. *)
Fixpoint to_string (v : Js.Val) : string :=
  match v with
  | Js.Undefined => "undefined"
  | Js.Null => "null"
  | Js.Bool b => if b then "true" else "false"
  | Js.Num n => decimal n
  | Js.Str s => s
  | Js.Arr items =>
      (fix join (l : list Js.Val) : string :=
         match l with
         | [] => ""
         | [x] => to_string x
         | x :: r => to_string x +:+ "," +:+ join r
         end) items
  | Js.Obj _ => "[object Object]"
  | Js.Fun _ => "function () { [native code] }"
  end.

(** [s.split(',')]; the receiver is a string wherever the program calls
    it ([a || 'default'] with [a] a string or [undefined]). *)
Definition split_comma (v : Js.Val) : Js.Val :=
  match v with
  | Js.Str s => Js.Arr (map Js.Str (split_on "," s))
  | _ => Js.Undefined
  end.

Fixpoint indices (n : nat) (from : Z) : list string :=
  match n with
  | O => []
  | S n' => decimal from :: indices n' (from + 1)
  end.

(** [Object.keys(v)] for a value that is neither [undefined] nor [null]. *)
Definition keys (v : Js.Val) : list string :=
  match v with
  | Js.Obj props | Js.Fun props => map fst props
  | Js.Arr items => indices (length items) 0
  | Js.Str s => indices (String.length s) 0
  | _ => []
  end.

End JsString.

(** ** JSON text: [JSON.stringify] *)

Module Json.

Definition quote : ascii := ascii_of_nat 34.
Definition backslash : ascii := ascii_of_nat 92.

Definition hex_digit (n : Z) : ascii :=
  if n <? 10 then Date.digit n else ascii_of_nat (87 + Z.to_nat n).

(** One character inside a string literal: the quote and the backslash
    are escaped, the control characters are written by their short names
    or as [\u00xx]. *)
Definition escape (c : ascii) : string :=
  let n := Z.of_nat (nat_of_ascii c) in
  if (n =? 34) || (n =? 92) then String backslash (String c "")
  else if n =? 8 then String backslash "b"
  else if n =? 9 then String backslash "t"
  else if n =? 10 then String backslash "n"
  else if n =? 12 then String backslash "f"
  else if n =? 13 then String backslash "r"
  else if n <? 32
       then String backslash
              ("u00" +:+ String (hex_digit (n / 16)) (String (hex_digit (n mod 16)) ""))
  else String c "".

Fixpoint escape_all (s : string) : string :=
  match s with
  | EmptyString => ""
  | String c rest => escape c +:+ escape_all rest
  end.

Definition quoted (s : string) : string :=
  String quote (escape_all s +:+ String quote "").

(** [JSON.stringify(v)]; [None] stands for [undefined], which is what an
    [undefined] or a function gives.  Inside an array these are written
    [null], inside an object their property is left out.  Objects are
    plain data here: none defines [toJSON]. *)
Fixpoint stringify (v : Js.Val) : option string :=
  match v with
  | Js.Undefined | Js.Fun _ => None
  | Js.Null => Some "null"
  | Js.Bool b => Some (if b then "true" else "false")
  | Js.Num n => Some (decimal n)
  | Js.Str s => Some (quoted s)
  | Js.Arr items =>
      Some ("[" +:+
            (fix elements (l : list Js.Val) : string :=
               match l with
               | [] => ""
               | x :: r =>
                   let t := match stringify x with Some t => t | None => "null" end in
                   match r with
                   | [] => t
                   | _ => t +:+ "," +:+ elements r
                   end
               end) items +:+ "]")
  | Js.Obj props =>
      Some ("{" +:+
            (fix members (l : list (string * Js.Val)) (sep : string) : string :=
               match l with
               | [] => ""
               | (k, x) :: r =>
                   match stringify x with
                   | Some t => sep +:+ quoted k +:+ ":" +:+ t +:+ members r ","
                   | None => members r sep
                   end
               end) props "" +:+ "}")
  end.

End Json.

(** ** Requests, responses and the layers of the application *)

(** A call into code outside [index.js] returns or throws. *)
Inductive Completion (A : Type) :=
| Returns (a : A)
| Throws (e : Js.Val).
Arguments Returns {A} a.
Arguments Throws {A} e.

(** A request as the handlers of [index.js] read it: method, path (the
    path component of the URL, in the normal form the router matches on),
    headers under their lower-case names, and [req.id], which is whatever
    an earlier stage stored there ([undefined] when none did).  Requests
    are taken to be unconditional: the answer 304 that Express gives, on
    sending, to a GET whose If-None-Match or If-Modified-Since validators
    match is outside the model. *)
Record Request := mkRequest {
  req_method : string;
  req_path : string;
  req_headers : gmap string string;
  req_id : Js.Val
}.

(** What a response carries: nothing, the JSON text of a value
    ([res.json]), or one of the two pages Express writes on its own: the
    page that shows a text ("Cannot GET /path"), and the page it renders
    for an error nobody handled (the stack of the error outside
    production, the standard text of the status in production). *)
Inductive Body :=
| NoBody
| JsonBody (v : Js.Val)
| TextBody (s : string)
| ErrorPage (e : Js.Val).

(** The response object [res] while it travels through the stack: the
    status and the headers set so far; nothing is written yet. *)
Record Res := mkRes {
  res_status : Js.Val;
  res_headers : gmap string string
}.

(** A response as it is sent.  Headers that Express adds on its own when
    sending are not tracked: Content-Type, Content-Length and ETag, and on
    the pages of its last resort the two security headers and the headers
    an error object may bring along in a [headers] property.  The body is
    the one a request of any method but HEAD gets: for a HEAD request
    Express prepares the same response and writes no body. *)
Record Response := mkResponse {
  status : Js.Val;
  headers : gmap string string;
  body : Body
}.

(** A fresh [res]: status 200, no header. *)
Definition fresh_res : Res :=
  {| res_status := Js.Num 200; res_headers := ∅ |}.

(** [res.header(name, value)] *)
Definition res_header (name : string) (value : Js.Val) (rs : Res) : Res :=
  {| res_status := res_status rs;
     res_headers := <[name := JsString.to_string value]> (res_headers rs) |}.

(** The codes [res.status] accepts: the integers from 100 to 999. *)
Definition accepts_status (code : Js.Val) : bool :=
  match code with
  | Js.Num n => (100 <=? n) && (n <=? 999)
  | _ => false
  end.

(** The error [res.status] throws for a code it does not accept (a
    TypeError when the code is not an integer, a RangeError when it is an
    integer out of range).  Of the error object the message is kept; its
    stack is the engine's and is not modelled.  The object has no
    [status], no [statusCode] and no [headers]. *)
Definition invalid_status_code (code : Js.Val) : Js.Val :=
  Js.Obj
    [("message",
      Js.Str ("Invalid status code: "
              +:+ default "undefined" (Json.stringify code) +:+ ". "
              +:+ match code with
                  | Js.Num _ => "Status code must be greater than 99 and less than 1000."
                  | _ => "Status code must be an integer."
                  end))].

(** [res.status(code)], as Express 5 has it ([package.json] asks for
    express ^5.1.0): the code is stored when it is an integer from 100 to
    999; any other value makes the call throw and leaves [res] as it
    was. *)
Definition res_set_status (code : Js.Val) (rs : Res) : Completion Res :=
  if accepts_status code
  then Returns {| res_status := code; res_headers := res_headers rs |}
  else Throws (invalid_status_code code).

(** The statuses with which no body is written: 1xx, 204, 205 and 304. *)
Definition bodiless (code : Js.Val) : bool :=
  match code with
  | Js.Num n => (n <? 200) || (n =? 204) || (n =? 205) || (n =? 304)
  | _ => false
  end.

(** [res.json(v)]: the JSON text of [v] is the body, unless the status
    set on the response allows none. *)
Definition res_json (v : Js.Val) (rs : Res) : Response :=
  {| status := res_status rs; headers := res_headers rs;
     body := if bodiless (res_status rs) then NoBody else JsonBody v |}.

(** [res.end()] *)
Definition res_end (rs : Res) : Response :=
  {| status := res_status rs; headers := res_headers rs; body := NoBody |}.

(** [req.headers.origin] *)
Definition origin (rq : Request) : Js.Val :=
  match req_headers rq !! "origin" with
  | Some s => Js.Str s
  | None => Js.Undefined
  end.

(** What a handler does with a request: hand it on ([next()]), call
    [next(v)] with a value or throw one (Express catches what a handler
    throws and calls [next] with it), or send the response.  A handler
    that has begun to write the response counts as having sent it. *)
Inductive Outcome :=
| Next (rq : Request) (rs : Res)
| NextErr (e : Js.Val) (rq : Request) (rs : Res)
| Sent (r : Response).

(** [res.status(code)] followed by the call that sends the response
    ([.json(v)] or [.end()]), inside a handler that holds [rq] and [rs]:
    when [res.status] throws, nothing is sent and the error goes to the
    stack. *)
Definition send_with_status (code : Js.Val) (send : Res -> Response)
    (rq : Request) (rs : Res) : Outcome :=
  match res_set_status code rs with
  | Returns rs' => Sent (send rs')
  | Throws e => NextErr e rq rs
  end.

(** What a handler can read besides the request: the process environment
    and the clock ([new Date()], in milliseconds since the epoch). *)
Record Ctx := mkCtx {
  ctx_env : gmap string string;
  ctx_now : Z
}.

Definition Handler : Type := Ctx -> Request -> Res -> Outcome.
Definition ErrHandler : Type := Ctx -> Js.Val -> Request -> Res -> Outcome.

(** One entry of the application's stack, in the order of registration. *)
Inductive Layer :=
| Use (name : string) (h : Handler)          (* app.use(fn) *)
| Mount (prefix : string) (h : Handler)      (* app.use(prefix, router) *)
| Get (path : string) (h : Handler)          (* app.get(path, fn) *)
| UseError (name : string) (h : ErrHandler). (* app.use((err, req, res, next) => ..) *)

Definition layer_name (l : Layer) : string :=
  match l with
  | Use n _ | Mount n _ | Get n _ | UseError n _ => n
  end.

(** ** The handlers [index.js] registers *)

(** The reflective CORS middleware ([index.js], lines 94-106). *)
Definition corsMiddleware : Handler := fun _ req res =>
  let res := res_header "Access-Control-Allow-Origin"
               (Js.or (origin req) (Js.Str "*")) res in
  let res := res_header "Access-Control-Allow-Methods"
               (Js.Str "GET, POST, PUT, DELETE, OPTIONS") res in
  let res := res_header "Access-Control-Allow-Headers"
               (Js.Str "Content-Type, Authorization, DNT, User-Agent, X-Requested-With, If-Modified-Since, Cache-Control, Range") res in
  let res := res_header "Access-Control-Allow-Credentials" (Js.Str "true") res in
  let res := res_header "Access-Control-Expose-Headers"
               (Js.Str "Content-Length, Content-Range") res in
  if String.eqb (req_method req) "OPTIONS"
  then send_with_status (Js.Num 200) res_end req res
  else Next req res.

(** [GET /api/cors-test] (lines 109-116). *)
Definition corsTestHandler : Handler := fun ctx req res =>
  send_with_status (Js.Num 200)
    (res_json
       (Js.Obj [("status", Js.Str "ok");
                ("message", Js.Str "CORS is properly configured");
                ("origin", Js.or (origin req) (Js.Str "No origin header"));
                ("timestamp", Js.Str (Date.toISOString (ctx_now ctx)))]))
    req res.

(** The allow-list the health report shows (lines 135-137). *)
Definition allowedOrigins (env : gmap string string) : Js.Val :=
  if is_production env
  then JsString.split_comma
         (Js.or (getenv env "ALLOWED_ORIGINS")
                (Js.Str "https://pilves.github.io,https://api.chaidla.ee"))
  else JsString.split_comma
         (Js.or (getenv env "DEV_ALLOWED_ORIGINS")
                (Js.Str "http://localhost:5173,http://localhost:5000")).

(** [GET /api/health] (lines 127-139). *)
Definition healthHandler : Handler := fun ctx req res =>
  let env := ctx_env ctx in
  send_with_status (Js.Num 200)
    (res_json
       (Js.Obj [("status", Js.Str "ok");
                ("message", Js.Str "Sleep Olympics API is running");
                ("environment", Js.or (getenv env "NODE_ENV") (Js.Str "development"));
                ("version", Js.or (getenv env "npm_package_version") (Js.Str "1.0.0"));
                ("timestamp", Js.Str (Date.toISOString (ctx_now ctx)));
                ("corsOrigin", Js.or (origin req) (Js.Str "No origin header"));
                ("allowedOrigins", allowedOrigins env)]))
    req res.

(** The object the global error handler builds (lines 144-151). *)
Definition errorResponse_of (ctx : Ctx) (err : Js.Val) (req : Request)
  : list (string * Js.Val) :=
  let errorResponse :=
    [("error", Js.or (Js.get err "message") (Js.Str "Internal server error"));
     ("requestId", req_id req)] in
  if negb (is_production (ctx_env ctx))
  then Js.put "stack" (Js.get err "stack") errorResponse
  else errorResponse.

(** The global error handler (lines 142-154). *)
Definition errorHandler : ErrHandler := fun ctx err req res =>
  let statusCode := Js.or (Js.get err "statusCode") (Js.Num 500) in
  send_with_status statusCode (res_json (Js.Obj (errorResponse_of ctx err req)))
    req res.

(** ** Dispatch: how Express runs a request through the stack *)

(** [app.use(prefix, ..)] matches the prefix itself and every path below
    it. *)
Definition under_prefix (prefix path : string) : bool :=
  String.eqb path prefix || String.prefix (prefix +:+ "/") path.

(** [app.get] answers GET and HEAD. *)
Definition is_get (m : string) : bool :=
  String.eqb m "GET" || String.eqb m "HEAD".

(** An error status: a number from 400 to 599. *)
Definition in_range (v : Js.Val) : bool :=
  match v with
  | Js.Num n => (400 <=? n) && (n <=? 599)
  | _ => false
  end.

(** The headers Express's last resort takes off the response before it
    writes its page. *)
Definition content_headers : list string :=
  ["Content-Encoding"; "Content-Language"; "Content-Range"].

Definition without_content_headers (hs : gmap string string)
  : gmap string string :=
  foldr delete hs content_headers.

(** Express's own last resort ([finalhandler]), reached when the stack
    is left unanswered: 404 when no error is pending, and for an error
    nobody handled the status the error or the response carries when it
    is an error status, else 500. *)
Definition finalhandler (err : option Js.Val) (rq : Request) (rs : Res)
  : Response :=
  match err with
  | None =>
      {| status := Js.Num 404;
         headers := without_content_headers (res_headers rs);
         body := TextBody ("Cannot " +:+ req_method rq +:+ " " +:+ req_path rq) |}
  | Some e =>
      let code :=
        if in_range (Js.get e "status") then Js.get e "status"
        else if in_range (Js.get e "statusCode") then Js.get e "statusCode"
        else if in_range (res_status rs) then res_status rs
        else Js.Num 500 in
      {| status := code;
         headers := without_content_headers (res_headers rs);
         body := ErrorPage e |}
  end.

(** A request on its way through the stack: still travelling, possibly
    with an error pending; answered; or taken out of the router by
    [next('router')]. *)
Inductive Flow :=
| Pending (err : option Js.Val) (rq : Request) (rs : Res)
| Done (r : Response)
| LeftRouter (rq : Request) (rs : Res).

(** What the router makes of the argument of [next]: ['route'] counts as
    no argument. *)
Definition layerError (err : Js.Val) : Js.Val :=
  if Js.is_str err "route" then Js.Null else err.

(** The result of one layer, continued with the rest of the stack.  The
    second component lists the layers that were entered, in order.
    [next('router')] leaves the router: no later layer is tried.  Any
    other truthy argument of [next] is an error pending from there on; a
    falsy one is no error. *)
Definition continue (name : string) (o : Outcome)
    (k : option Js.Val -> Request -> Res -> Flow * list string)
  : Flow * list string :=
  match o with
  | Next rq rs => let '(f, tr) := k None rq rs in (f, name :: tr)
  | NextErr e rq rs =>
      if Js.is_str (layerError e) "router" then (LeftRouter rq rs, [name])
      else
        let '(f, tr) :=
          k (if Js.truthy (layerError e) then Some (layerError e) else None) rq rs in
        (f, name :: tr)
  | Sent r => (Done r, [name])
  end.

(** Layers are tried in the order of registration.  While no error is
    pending the error handlers are skipped, and so are the layers whose
    path or method does not match; once an error is pending only error
    handlers run. *)
Fixpoint run (ctx : Ctx) (stack : list Layer) (err : option Js.Val)
    (rq : Request) (rs : Res) : Flow * list string :=
  match stack with
  | [] => (Pending err rq rs, [])
  | l :: rest =>
      match err, l with
      | None, Use n h => continue n (h ctx rq rs) (run ctx rest)
      | None, Mount p h =>
          if under_prefix p (req_path rq)
          then continue p (h ctx rq rs) (run ctx rest)
          else run ctx rest None rq rs
      | None, Get p h =>
          if is_get (req_method rq) && String.eqb (req_path rq) p
          then continue p (h ctx rq rs) (run ctx rest)
          else run ctx rest None rq rs
      | None, UseError _ _ => run ctx rest None rq rs
      | Some e, UseError n h => continue n (h ctx e rq rs) (run ctx rest)
      | Some e, _ => run ctx rest (Some e) rq rs
      end
  end.

(** What leaves the stack unanswered goes to Express's last resort; a
    request taken out of the router arrives there with no error. *)
Definition finish (f : Flow) : Response :=
  match f with
  | Pending err rq rs => finalhandler err rq rs
  | Done r => r
  | LeftRouter rq rs => finalhandler None rq rs
  end.

Definition dispatch (ctx : Ctx) (stack : list Layer) (err : option Js.Val)
    (rq : Request) (rs : Res) : Response * list string :=
  let '(f, tr) := run ctx stack err rq rs in (finish f, tr).

(** The application answers a request starting from a fresh [res]. *)
Definition handle (ctx : Ctx) (stack : list Layer) (rq : Request)
  : Response * list string :=
  dispatch ctx stack None rq fresh_res.

(** The headers a handler leaves on the response, whichever way it goes
    on. *)
Definition headers_of (o : Outcome) : gmap string string :=
  match o with
  | Next _ rs | NextErr _ _ rs => res_headers rs
  | Sent r => headers r
  end.

(** ** The process: state, exit and exceptions *)

(** The modules [index.js] requires and the platform calls it makes. *)
Record Externals := mkExternals {
  (* the .env file dotenv reads *)
  dotenv_file : gmap string string;
  (* JSON.parse *)
  JSON_parse : string -> Completion Js.Val;
  (* require(path) of a JSON file, relative to index.js *)
  require_json : string -> Completion Js.Val;
  (* admin.credential.cert, admin.initializeApp, admin.firestore *)
  credential_cert : Js.Val -> Completion Js.Val;
  admin_initializeApp : Js.Val -> Completion unit;
  admin_firestore : Completion Js.Val;
  (* require('./utils/firestoreUtils') *)
  firestoreUtils_module : Js.Val -> Completion Js.Val;
  (* what configureSecurityMiddleware(app) and configureLogging(app)
     register, and the two body parsers *)
  security_layers : list Layer;
  logging_layers : list Layer;
  express_json : Handler;
  express_urlencoded : Handler;
  (* the route factories, by mount point: authRoutes, userRoutes, ... *)
  route_module : string -> Js.Val -> Handler
}.

Inductive Level := Info | Error.

Record LogEntry := mkLog {
  log_level : Level;
  log_message : string;
  log_meta : Js.Val
}.

(** The state [startServer] works on: the environment, the module-level
    variable [firestore], what the logger received (oldest first), the
    stack of the application, and the port handed to [app.listen]. *)
Record Proc := mkProc {
  env : gmap string string;
  firestore : Js.Val;
  logged : list LogEntry;
  app : list Layer;
  listening : option Js.Val
}.

(** A step of the start-up returns, throws, or ends the process with an
    exit code; in each case the state reached is kept for inspection. *)
Inductive Result (A : Type) :=
| Ret (a : A) (st : Proc)
| Thrown (e : Js.Val) (st : Proc)
| Exited (code : Z) (st : Proc).
Arguments Ret {A} a st.
Arguments Thrown {A} e st.
Arguments Exited {A} code st.

Definition M (A : Type) : Type := Proc -> Result A.

#[global] Instance M_ret : MRet M := fun A a st => Ret a st.
#[global] Instance M_bind : MBind M := fun A B f m st =>
  match m st with
  | Ret a st' => f a st'
  | Thrown e st' => Thrown e st'
  | Exited c st' => Exited c st'
  end.

(** [try { body } catch (error) { handler }]: an exit is not caught. *)
Definition try_catch {A} (body : M A) (handler : Js.Val -> M A) : M A :=
  fun st =>
    match body st with
    | Thrown e st' => handler e st'
    | r => r
    end.

(** [process.exit(code)] *)
Definition process_exit {A} (code : Z) : M A := fun st => Exited code st.

Definition call {A} (c : Completion A) : M A := fun st =>
  match c with
  | Returns a => Ret a st
  | Throws e => Thrown e st
  end.

Definition read {A} (f : Proc -> A) : M A := fun st => Ret (f st) st.

Definition set_env (e : gmap string string) : M unit := fun st =>
  Ret tt {| env := e; firestore := firestore st; logged := logged st;
            app := app st; listening := listening st |}.

Definition set_firestore (v : Js.Val) : M unit := fun st =>
  Ret tt {| env := env st; firestore := v; logged := logged st;
            app := app st; listening := listening st |}.

Definition logger (lv : Level) (msg : string) (meta : Js.Val) : M unit := fun st =>
  Ret tt {| env := env st; firestore := firestore st;
            logged := logged st ++ [mkLog lv msg meta];
            app := app st; listening := listening st |}.

(** [app.use], [app.get]: the layers are appended to the stack. *)
Definition register (ls : list Layer) : M unit := fun st =>
  Ret tt {| env := env st; firestore := firestore st; logged := logged st;
            app := app st ++ ls; listening := listening st |}.

(** [app.listen(port, ..)].  The call is taken to succeed: a port Node
    does not accept, or one that is in use, is outside the model. *)
Definition app_listen (port : Js.Val) : M unit := fun st =>
  Ret tt {| env := env st; firestore := firestore st; logged := logged st;
            app := app st; listening := Some port |}.

(** ** The start-up sequence *)

Inductive CredentialSource :=
| EnvBlob (blob : string)     (* JSON.parse(process.env.FIREBASE_SERVICE_ACCOUNT) *)
| LocalFile (path : string).  (* require('./serviceAccountKey.json') *)

(** The branch of lines 23-29. *)
Definition credentialSource (e : gmap string string) : CredentialSource :=
  if Js.truthy (Js.and (Js.Bool (is_production e))
                       (getenv e "FIREBASE_SERVICE_ACCOUNT"))
  then EnvBlob (JsString.to_string (getenv e "FIREBASE_SERVICE_ACCOUNT"))
  else LocalFile "./serviceAccountKey.json".

(** The route groups, in the order they are mounted (lines 119-124). *)
Definition route_prefixes : list string :=
  ["/api/auth"; "/api/users"; "/api/sleep"; "/api/competitions";
   "/api/notifications"; "/api/invitations"].

(** The test of line 71:
    [!firestoreUtils || typeof firestoreUtils.queryDocuments !== 'function'] *)
Definition facade_rejected (firestoreUtils : Js.Val) : bool :=
  negb (Js.truthy firestoreUtils)
  || negb (String.eqb (Js.typeof (Js.get firestoreUtils "queryDocuments")) "function").

Definition methods_of (v : Js.Val) : Js.Val :=
  Js.Obj [("methods", Js.Arr (map Js.Str (JsString.keys v)))].

Section Startup.

Variable X : Externals.

(** The [if] of lines 23-29: where [serviceAccount] comes from. *)
Definition load_serviceAccount (e : gmap string string) : Completion Js.Val :=
  match credentialSource e with
  | EnvBlob blob => JSON_parse X blob
  | LocalFile path => require_json X path
  end.

(** [loadEnv] (lines 12-14) *)
Definition loadEnv : M unit :=
  e ← read env; set_env (dotenv_config (dotenv_file X) e).

(** [initializeFirebaseAdmin] (lines 19-42) *)
Definition initializeFirebaseAdmin : M unit :=
  try_catch
    (e ← read env;
     serviceAccount ← call (load_serviceAccount e);
     credential ← call (credential_cert X serviceAccount);
     call (admin_initializeApp X (Js.Obj [("credential", credential)]));;
     fs ← call (admin_firestore X);
     set_firestore fs;;
     logger Info "Firebase Admin initialized successfully" Js.Undefined)
    (fun error =>
       logger Error "Error initializing Firebase Admin:" error;;
       process_exit 1).

(** The stages registered ahead of the reflective CORS middleware
    (lines 88-91). *)
Definition upstream : list Layer :=
  security_layers X ++ logging_layers X
  ++ [Use "express.json" (express_json X);
      Use "express.urlencoded" (express_urlencoded X)].

(** The route groups (lines 119-124). *)
Definition route_groups (firestoreUtils : Js.Val) : list Layer :=
  map (fun p => Mount p (route_module X p firestoreUtils)) route_prefixes.

(** The stack from the reflective CORS middleware on (lines 94-154). *)
Definition from_cors (firestoreUtils : Js.Val) : list Layer :=
  [Use "cors" corsMiddleware; Get "/api/cors-test" corsTestHandler]
  ++ route_groups firestoreUtils
  ++ [Get "/api/health" healthHandler; UseError "errorHandler" errorHandler].

(** The stack [startServer] builds in steps 4 to 7 (lines 88-154). *)
Definition build_stack (firestoreUtils : Js.Val) : list Layer :=
  upstream ++ from_cors firestoreUtils.

(** [startServer] (lines 58-166) *)
Definition startServer : M unit :=
  loadEnv;;
  logger Info "Environment variables loaded." Js.Undefined;;
  initializeFirebaseAdmin;;
  fs ← read firestore;
  firestoreUtils ← call (firestoreUtils_module X fs);
  (if facade_rejected firestoreUtils
   then logger Error "firestoreUtils was not initialized correctly!"
          (methods_of (Js.or firestoreUtils (Js.Obj [])));;
        process_exit 1
   else logger Info "firestoreUtils initialized successfully with methods:"
          (methods_of firestoreUtils));;
  register (security_layers X);;
  register (logging_layers X);;
  register [Use "express.json" (express_json X)];;
  register [Use "express.urlencoded" (express_urlencoded X)];;
  register [Use "cors" corsMiddleware];;
  register [Get "/api/cors-test" corsTestHandler];;
  register [Mount "/api/auth" (route_module X "/api/auth" firestoreUtils)];;
  register [Mount "/api/users" (route_module X "/api/users" firestoreUtils)];;
  register [Mount "/api/sleep" (route_module X "/api/sleep" firestoreUtils)];;
  register [Mount "/api/competitions" (route_module X "/api/competitions" firestoreUtils)];;
  register [Mount "/api/notifications" (route_module X "/api/notifications" firestoreUtils)];;
  register [Mount "/api/invitations" (route_module X "/api/invitations" firestoreUtils)];;
  register [Get "/api/health" healthHandler];;
  register [UseError "errorHandler" errorHandler];;
  e ← read env;
  let PORT := Js.or (getenv e "PORT") (Js.Num 5000) in
  app_listen PORT;;
  logger Info
    ("Server running on port " +:+ JsString.to_string PORT +:+ " in "
     +:+ JsString.to_string (Js.or (getenv e "NODE_ENV") (Js.Str "development"))
     +:+ " mode vibe") Js.Undefined.

End Startup.

(** The process as it stands when [startServer] is called: line 9 has
    read the [.env] file once already; nothing is logged, no application
    exists, [firestore] is declared and not yet assigned. *)
Definition boot (X : Externals) (env0 : gmap string string) : Proc :=
  {| env := dotenv_config (dotenv_file X) env0;
     firestore := Js.Undefined; logged := []; app := []; listening := None |}.

(** How the process stands once the start-up has run its course: the
    listener keeps it alive, or it has ended with an exit code. *)
Inductive Process :=
| Serving (st : Proc)
| Terminated (code : Z) (st : Proc).

(** Line 169: [startServer()] is called and the promise it returns is
    dropped, with no [catch].  When [startServer] throws, the promise is
    rejected and nothing handles the rejection: Node ([package.json] asks
    for 18 or later) reports it and ends the process with exit code 1. *)
Definition main (X : Externals) (env0 : gmap string string) : Process :=
  match startServer X (boot X env0) with
  | Ret _ st => Serving st
  | Thrown _ st => Terminated 1 st
  | Exited code st => Terminated code st
  end.

(** ** Notions the properties are stated with *)

(** The try block of [initializeFirebaseAdmin] fails with [err]: the
    credential cannot be read or parsed, or the Firebase client rejects
    it, or the store session cannot be opened. *)
Inductive InitFailure (X : Externals) (e : gmap string string) (err : Js.Val) : Prop :=
| credential_unreadable :
    load_serviceAccount X e = Throws err -> InitFailure X e err
| credential_rejected sa :
    load_serviceAccount X e = Returns sa ->
    credential_cert X sa = Throws err -> InitFailure X e err
| initializeApp_failed sa cred :
    load_serviceAccount X e = Returns sa ->
    credential_cert X sa = Returns cred ->
    admin_initializeApp X (Js.Obj [("credential", cred)]) = Throws err ->
    InitFailure X e err
| firestore_failed sa cred :
    load_serviceAccount X e = Returns sa ->
    credential_cert X sa = Returns cred ->
    admin_initializeApp X (Js.Obj [("credential", cred)]) = Returns tt ->
    admin_firestore X = Throws err -> InitFailure X e err.

(** The try block completes and yields the store handle [fs]. *)
Definition InitSuccess (X : Externals) (e : gmap string string) (fs : Js.Val) : Prop :=
  exists sa cred,
    load_serviceAccount X e = Returns sa /\
    credential_cert X sa = Returns cred /\
    admin_initializeApp X (Js.Obj [("credential", cred)]) = Returns tt /\
    admin_firestore X = Returns fs.

Ltac run_M :=
  cbv beta iota zeta delta
    [mbind mret M_bind M_ret try_catch call read set_env set_firestore
     logger register app_listen process_exit
     env firestore logged app listening].

(** The façade check of line 71 fails: the try block went through, the
    [firestoreUtils] module returned [fu], and [fu] is rejected. *)
Definition FacadeFailure (X : Externals) (e : gmap string string) : Prop :=
  exists fs fu,
    InitSuccess X e fs /\ firestoreUtils_module X fs = Returns fu /\
    facade_rejected fu = true.

Definition server_running_message (e : gmap string string) : string :=
  "Server running on port "
  +:+ JsString.to_string (Js.or (getenv e "PORT") (Js.Num 5000)) +:+ " in "
  +:+ JsString.to_string (Js.or (getenv e "NODE_ENV") (Js.Str "development"))
  +:+ " mode vibe".

(** The answer to an error that has reached the global error handler:
    the handler's JSON response when [res.status] accepts the code, and
    otherwise the page of Express's last resort for the error
    [res.status] throws. *)
Definition error_answer (ctx : Ctx) (e : Js.Val) (rq : Request) (rs : Res)
  : Response :=
  let code := Js.or (Js.get e "statusCode") (Js.Num 500) in
  if accepts_status code
  then res_json (Js.Obj (errorResponse_of ctx e rq))
         {| res_status := code; res_headers := res_headers rs |}
  else finalhandler (Some (invalid_status_code code)) rq rs.

Definition cors_headers : list string :=
  ["Access-Control-Allow-Origin"; "Access-Control-Allow-Methods";
   "Access-Control-Allow-Headers"; "Access-Control-Allow-Credentials";
   "Access-Control-Expose-Headers"].

(** What the middleware has set when it is done. *)
Definition with_cors_headers (rq : Request) (hs : gmap string string)
  : gmap string string :=
  <["Access-Control-Expose-Headers" := "Content-Length, Content-Range"]>
  (<["Access-Control-Allow-Credentials" := "true"]>
  (<["Access-Control-Allow-Headers" := "Content-Type, Authorization, DNT, User-Agent, X-Requested-With, If-Modified-Since, Cache-Control, Range"]>
  (<["Access-Control-Allow-Methods" := "GET, POST, PUT, DELETE, OPTIONS"]>
  (<["Access-Control-Allow-Origin" := JsString.to_string (Js.or (origin rq) (Js.Str "*"))]>
     hs)))).

(** A handler keeps the headers it finds on the response: it may add
    headers or change their values, it removes none. *)
Definition keeps_headers (h : Handler) : Prop :=
  forall ctx rq rs, dom (res_headers rs) ⊆ dom (headers_of (h ctx rq rs)).

Definition layer_keeps_headers (l : Layer) : Prop :=
  match l with
  | Use _ h | Mount _ h | Get _ h => keeps_headers h
  | UseError _ h => forall e, keeps_headers (fun ctx => h ctx e)
  end.

(** The value of a setting: the variable when it is set to a non-empty
    string, the default otherwise. *)
Definition setting (e : gmap string string) (k default : string) : string :=
  match e !! k with
  | Some s => if String.eqb s "" then default else s
  | None => default
  end.

(** The Origin header when the request has a non-empty one, the
    placeholder otherwise. *)
Definition origin_or (rq : Request) (placeholder : string) : string :=
  match req_headers rq !! "origin" with
  | Some s => if String.eqb s "" then placeholder else s
  | None => placeholder
  end.

(** One process answering a sequence of requests, each at its own clock
    reading: the environment and the stack stay the same. *)
Definition serve (e : gmap string string) (stack : list Layer)
    (calls : list (Z * Request)) : list Response :=
  map (fun c => (handle {| ctx_env := e; ctx_now := c.1 |} stack c.2).1) calls.

(** The [timestamp] field of a JSON response. *)
Definition timestamp_of (r : Response) : option string :=
  match body r with
  | JsonBody (Js.Obj props) =>
      match Js.assoc "timestamp" props with
      | Js.Str s => Some s
      | _ => None
      end
  | _ => None
  end.

(** The earlier stages hand the request on as a GET /api/health. *)
Definition reaches_health (X : Externals) (ctx : Ctx) (rq : Request) : Prop :=
  exists rq' rs' tr,
    run ctx (upstream X) None rq fresh_res = (Pending None rq' rs', tr) /\
    req_method rq' = "GET" /\ req_path rq' = "/api/health".

(** The state a run ends in, however it ends. *)
Definition final_state {A} (r : Result A) : Proc :=
  match r with
  | Ret _ st | Thrown _ st | Exited _ st => st
  end.

(** The port [app.listen] is given: the PORT variable as it is (a
    string) when it is set and not empty, the number 5000 otherwise. *)
Definition listen_port (e : gmap string string) : Js.Val :=
  match e !! "PORT" with
  | Some p => if String.eqb p "" then Js.Num 5000 else Js.Str p
  | None => Js.Num 5000
  end.

(** The [res] the reflective CORS middleware hands on. *)
Definition after_cors (rq : Request) (rs : Res) : Res :=
  {| res_status := res_status rs;
     res_headers := with_cors_headers rq (res_headers rs) |}.

(** [l.join(sep)] *)
Fixpoint join_with (sep : string) (l : list string) : string :=
  match l with
  | [] => ""
  | x :: r =>
      match r with
      | [] => x
      | _ => x +:+ sep +:+ join_with sep r
      end
  end.

Fixpoint has_char (c : ascii) (s : string) : bool :=
  match s with
  | EmptyString => false
  | String d rest => Ascii.eqb d c || has_char c rest
  end.

(** The comma-separated list the health report reads: the one of the
    mode, or the mode's default when it is unset or empty. *)
Definition configured_origins (e : gmap string string) : string :=
  if is_production e
  then setting e "ALLOWED_ORIGINS" "https://pilves.github.io,https://api.chaidla.ee"
  else setting e "DEV_ALLOWED_ORIGINS" "http://localhost:5173,http://localhost:5000".

(** ** Sample worlds, requests and errors *)

Module Sample.

(** A stage that hands every request on. *)
Definition pass : Handler := fun _ rq rs => Next rq rs.

(** A stage that stores a request identifier, as a request-id middleware
    does. *)
Definition tag_request : Handler := fun _ rq rs =>
  Next {| req_method := req_method rq; req_path := req_path rq;
          req_headers := req_headers rq; req_id := Js.Str "req-1" |} rs.

Definition not_found : Js.Val :=
  Js.Obj [("statusCode", Js.Num 404); ("message", Js.Str "User not found");
          ("stack", Js.Str "Error: User not found\n    at users.js:10")].

(** The users router raises a 404 error; the others answer. *)
Definition router (prefix : string) (facade : Js.Val) : Handler := fun _ rq rs =>
  if String.eqb prefix "/api/users" then NextErr not_found rq rs
  else Sent (res_json (Js.Obj [("ok", Js.Bool true)]) rs).

Definition facade : Js.Val :=
  Js.Obj [("queryDocuments", Js.Fun []); ("createDocument", Js.Fun [])].

Definition syntax_error : Js.Val :=
  Js.Obj [("message", Js.Str "Unexpected end of JSON input")].

(** The credential file is in place, the blob parser accepts ["{}"]. *)
Definition world : Externals :=
  {| dotenv_file := {["PORT" := "8080"]};
     JSON_parse := fun s =>
       if String.eqb s "{}" then Returns (Js.Obj []) else Throws syntax_error;
     require_json := fun _ => Returns (Js.Obj [("project_id", Js.Str "sleep")]);
     credential_cert := fun sa => Returns (Js.Obj [("cert", sa)]);
     admin_initializeApp := fun _ => Returns tt;
     admin_firestore := Returns (Js.Obj [("db", Js.Str "firestore")]);
     firestoreUtils_module := fun _ => Returns facade;
     security_layers := [Use "security" tag_request];
     logging_layers := [Use "logging" pass];
     express_json := pass;
     express_urlencoded := pass;
     route_module := router |}.

(** The same world with a [firestoreUtils] module that returns a façade
    without [queryDocuments]. *)
Definition world_broken_facade : Externals :=
  {| dotenv_file := dotenv_file world;
     JSON_parse := JSON_parse world;
     require_json := require_json world;
     credential_cert := credential_cert world;
     admin_initializeApp := admin_initializeApp world;
     admin_firestore := admin_firestore world;
     firestoreUtils_module := fun _ =>
       Returns (Js.Obj [("createDocument", Js.Fun []); ("updateDocument", Js.Fun [])]);
     security_layers := security_layers world;
     logging_layers := logging_layers world;
     express_json := express_json world;
     express_urlencoded := express_urlencoded world;
     route_module := route_module world |}.

Definition production : gmap string string :=
  {["NODE_ENV" := "production"]}.

Definition production_with_blob (blob : string) : gmap string string :=
  {["NODE_ENV" := "production"; "FIREBASE_SERVICE_ACCOUNT" := blob]}.

Definition development : gmap string string := ∅.

End Sample.

Module SampleRequests.

Definition dev : Ctx := {| ctx_env := Sample.development; ctx_now := 1700000000123 |}.
Definition prod : Ctx := {| ctx_env := Sample.production; ctx_now := 1700000000123 |}.

Definition request (m p : string) (hs : gmap string string) : Request :=
  {| req_method := m; req_path := p; req_headers := hs; req_id := Js.Undefined |}.

(** The request as [Sample.tag_request] leaves it. *)
Definition tagged (rq : Request) : Request :=
  {| req_method := req_method rq; req_path := req_path rq;
     req_headers := req_headers rq; req_id := Js.Str "req-1" |}.

Definition from_localhost : gmap string string :=
  {["origin" := "http://localhost:5173"]}.

Definition empty_origin : gmap string string := {["origin" := ""]}.

(** An error whose status code is 0, and a thrown plain object, which
    has no stack. *)
Definition status_zero : Js.Val :=
  Js.Obj [("statusCode", Js.Num 0); ("message", Js.Str "upstream unreachable");
          ("stack", Js.Str "Error: upstream unreachable")].
Definition plain_object : Js.Val :=
  Js.Obj [("statusCode", Js.Num 404); ("message", Js.Str "No such user")].
Definition no_message : Js.Val :=
  Js.Obj [("statusCode", Js.Num 503); ("stack", Js.Str "Error\n    at sleep.js:3")].

(** Errors whose status code [res.status] does not accept: a number out
    of range, and a code given as a string. *)
Definition status_42 : Js.Val := Js.Obj [("statusCode", Js.Num 42)].
Definition status_as_text : Js.Val :=
  Js.Obj [("statusCode", Js.Str "404"); ("message", Js.Str "No such user")].

End SampleRequests.

Module SampleFailures.

Definition module_error : Js.Val :=
  Js.Obj [("message", Js.Str "Cannot find module './utils/firestoreUtils'")].

(** The sample world with a [firestoreUtils] module that throws. *)
Definition world_module_throws : Externals :=
  {| dotenv_file := dotenv_file Sample.world;
     JSON_parse := JSON_parse Sample.world;
     require_json := require_json Sample.world;
     credential_cert := credential_cert Sample.world;
     admin_initializeApp := admin_initializeApp Sample.world;
     admin_firestore := admin_firestore Sample.world;
     firestoreUtils_module := fun _ => Throws module_error;
     security_layers := security_layers Sample.world;
     logging_layers := logging_layers Sample.world;
     express_json := express_json Sample.world;
     express_urlencoded := express_urlencoded Sample.world;
     route_module := route_module Sample.world |}.

Definition store : Js.Val := Js.Obj [("db", Js.Str "firestore")].

End SampleFailures.

Module SampleUpstream.

Definition malformed : Js.Val :=
  Js.Obj [("statusCode", Js.Num 400);
          ("message", Js.Str "Unexpected token } in JSON at position 12")].

(** The body parser on a request whose JSON payload is malformed: it
    raises the 400 error of body-parser. *)
Definition rejecting_parser : Handler := fun _ rq rs => NextErr malformed rq rs.

Definition world : Externals :=
  {| dotenv_file := dotenv_file Sample.world;
     JSON_parse := JSON_parse Sample.world;
     require_json := require_json Sample.world;
     credential_cert := credential_cert Sample.world;
     admin_initializeApp := admin_initializeApp Sample.world;
     admin_firestore := admin_firestore Sample.world;
     firestoreUtils_module := firestoreUtils_module Sample.world;
     security_layers := security_layers Sample.world;
     logging_layers := logging_layers Sample.world;
     express_json := rejecting_parser;
     express_urlencoded := express_urlencoded Sample.world;
     route_module := route_module Sample.world |}.

End SampleUpstream.

Module SampleRoutes.

(** A route group that takes a header off the response
    ([res.removeHeader]) before it answers. *)
Definition bare_router (prefix : string) (facade : Js.Val) : Handler :=
  fun _ rq rs =>
    Sent (res_json (Js.Obj [("ok", Js.Bool true)])
            {| res_status := res_status rs;
               res_headers := delete "Access-Control-Expose-Headers" (res_headers rs) |}).

Definition world : Externals :=
  {| dotenv_file := dotenv_file Sample.world;
     JSON_parse := JSON_parse Sample.world;
     require_json := require_json Sample.world;
     credential_cert := credential_cert Sample.world;
     admin_initializeApp := admin_initializeApp Sample.world;
     admin_firestore := admin_firestore Sample.world;
     firestoreUtils_module := firestoreUtils_module Sample.world;
     security_layers := security_layers Sample.world;
     logging_layers := logging_layers Sample.world;
     express_json := express_json Sample.world;
     express_urlencoded := express_urlencoded Sample.world;
     route_module := bare_router |}.

(** A route group that leaves the router: [next('router')]. *)
Definition leaving_router (prefix : string) (facade : Js.Val) : Handler :=
  fun _ rq rs => NextErr (Js.Str "router") rq rs.

End SampleRoutes.

(** * Properties *)

(** ** The model on examples *)

Example toISOString_epoch : Date.toISOString 0 = "1970-01-01T00:00:00.000Z".
Proof. reflexivity. Qed.

Example toISOString_2023 :
  Date.toISOString 1700000000123 = "2023-11-14T22:13:20.123Z".
Proof. vm_compute. reflexivity. Qed.

Example toISOString_leap :
  Date.toISOString 1709164799999 = "2024-02-28T23:59:59.999Z" /\
  Date.toISOString 1709164800000 = "2024-02-29T00:00:00.000Z" /\
  Date.toISOString (-1) = "1969-12-31T23:59:59.999Z" /\
  Date.toISOString 951782400000 = "2000-02-29T00:00:00.000Z" /\
  Date.toISOString (-62167219200000) = "0000-01-01T00:00:00.000Z" /\
  Date.toISOString (-62167219200001) = "-000001-12-31T23:59:59.999Z" /\
  Date.toISOString 253402300800000 = "+010000-01-01T00:00:00.000Z".
Proof. vm_compute. repeat split. Qed.

Example split_on_ex :
  split_on "," "a,b" = ["a"; "b"] /\ split_on "," "" = [""] /\
  split_on "," "a," = ["a"; ""] /\ split_on "," ",a" = [""; "a"].
Proof. repeat split. Qed.

Example decimal_ex :
  decimal 0 = "0" /\ decimal 5000 = "5000" /\ decimal (-17) = "-17" /\
  decimal 1023 = "1023" /\ decimal 9 = "9" /\ decimal 10 = "10".
Proof. vm_compute. repeat split. Qed.

(** ** Start-up *)

Lemma dotenv_config_idem file (e : gmap string string) :
  dotenv_config file (dotenv_config file e) = dotenv_config file e.
Proof.
  unfold dotenv_config. by rewrite <- (assoc_L (∪)), (idemp_L (∪)).
Qed.

(** Names that are set in the process environment win over the file. *)
Lemma dotenv_config_keeps file (e : gmap string string) k v :
  e !! k = Some v -> dotenv_config file e !! k = Some v.
Proof. intros H. unfold dotenv_config. by apply lookup_union_Some_l. Qed.

Lemma initializeFirebaseAdmin_failure X st err :
  InitFailure X (env st) err ->
  initializeFirebaseAdmin X st =
    Exited 1 {| env := env st; firestore := firestore st;
                logged := logged st ++ [mkLog Error "Error initializing Firebase Admin:" err];
                app := app st; listening := listening st |}.
Proof.
  intros H. destruct st as [e fs0 l a p]. simpl in H.
  unfold initializeFirebaseAdmin. run_M.
  destruct H as [H1 | sa H1 H2 | sa cred H1 H2 H3 | sa cred H1 H2 H3 H4].
  - by rewrite H1.
  - by rewrite H1, H2.
  - by rewrite H1, H2, H3.
  - by rewrite H1, H2, H3, H4.
Qed.

Lemma initializeFirebaseAdmin_success X st fs :
  InitSuccess X (env st) fs ->
  initializeFirebaseAdmin X st =
    Ret tt {| env := env st; firestore := fs;
              logged := logged st ++ [mkLog Info "Firebase Admin initialized successfully" Js.Undefined];
              app := app st; listening := listening st |}.
Proof.
  intros (sa & cred & H1 & H2 & H3 & H4). destruct st as [e fs0 l a p].
  simpl in H1. unfold initializeFirebaseAdmin. run_M. by rewrite H1, H2, H3, H4.
Qed.

(** When nothing fails, [startServer] returns with the whole stack
    registered, in the order of the source, and the listener started. *)
Lemma startServer_success X env0 fs fu :
  let e := dotenv_config (dotenv_file X) env0 in
  InitSuccess X e fs ->
  firestoreUtils_module X fs = Returns fu ->
  facade_rejected fu = false ->
  startServer X (boot X env0) =
    Ret tt {| env := e; firestore := fs;
              logged :=
                [mkLog Info "Environment variables loaded." Js.Undefined;
                 mkLog Info "Firebase Admin initialized successfully" Js.Undefined;
                 mkLog Info "firestoreUtils initialized successfully with methods:"
                   (methods_of fu);
                 mkLog Info (server_running_message e) Js.Undefined];
              app := build_stack X fu;
              listening := Some (Js.or (getenv e "PORT") (Js.Num 5000)) |}.
Proof.
  intros e Hinit Hfu Hok.
  unfold startServer, loadEnv, boot. run_M.
  rewrite dotenv_config_idem. fold e.
  erewrite initializeFirebaseAdmin_success by exact Hinit.
  run_M. rewrite Hfu. run_M. rewrite Hok. run_M.
  unfold build_stack, upstream, from_cors, route_groups, server_running_message.
  simpl. by rewrite <- !app_assoc.
Qed.

(** What [startServer] leaves behind when the try block fails. *)
Lemma startServer_init_failure X env0 err :
  let e := dotenv_config (dotenv_file X) env0 in
  InitFailure X e err ->
  startServer X (boot X env0) =
    Exited 1 {| env := e; firestore := Js.Undefined;
                logged :=
                  [mkLog Info "Environment variables loaded." Js.Undefined;
                   mkLog Error "Error initializing Firebase Admin:" err];
                app := []; listening := None |}.
Proof.
  intros e Herr.
  unfold startServer, loadEnv, boot. run_M.
  rewrite dotenv_config_idem. fold e.
  erewrite initializeFirebaseAdmin_failure by exact Herr.
  reflexivity.
Qed.

(** What [startServer] leaves behind when the façade is rejected. *)
Lemma startServer_facade_rejected X env0 fs fu :
  let e := dotenv_config (dotenv_file X) env0 in
  InitSuccess X e fs ->
  firestoreUtils_module X fs = Returns fu ->
  facade_rejected fu = true ->
  startServer X (boot X env0) =
    Exited 1 {| env := e; firestore := fs;
                logged :=
                  [mkLog Info "Environment variables loaded." Js.Undefined;
                   mkLog Info "Firebase Admin initialized successfully" Js.Undefined;
                   mkLog Error "firestoreUtils was not initialized correctly!"
                     (methods_of (Js.or fu (Js.Obj [])))];
                app := []; listening := None |}.
Proof.
  intros e Hinit Hfu Hrej.
  unfold startServer, loadEnv, boot. run_M.
  rewrite dotenv_config_idem. fold e.
  erewrite initializeFirebaseAdmin_success by exact Hinit.
  run_M. rewrite Hfu. run_M. rewrite Hrej. reflexivity.
Qed.

(** C1.  Whenever the initialisation of the store fails (the credential
    cannot be read or parsed, the client rejects it, the session cannot be
    opened) or the façade is rejected by the check of line 71,
    [startServer] ends the process with exit code 1, the last thing logged
    is an error, and at that point nothing has been registered on the
    application (no middleware, no route group) and [app.listen] has not
    been called.  The exit is final: no later step runs. *)
Theorem fatal_init_exits_before_mount X env0 :
  let e := dotenv_config (dotenv_file X) env0 in
  (exists err, InitFailure X e err) \/ FacadeFailure X e ->
  exists st',
    startServer X (boot X env0) = Exited 1 st' /\
    (exists msg meta, last (logged st') = Some (mkLog Error msg meta)) /\
    app st' = [] /\ listening st' = None.
Proof.
  intros e [[err Herr] | (fs & fu & Hinit & Hfu & Hrej)].
  - eexists. split; [by apply startServer_init_failure|].
    simpl. eauto.
  - eexists. split; [by apply (startServer_facade_rejected X env0 fs fu)|].
    simpl. eauto.
Qed.

Lemma fatal_init_exits_before_mount_witness :
  (exists st',
     startServer Sample.world (boot Sample.world (Sample.production_with_blob "{")) = Exited 1 st' /\
     (exists msg meta, last (logged st') = Some (mkLog Error msg meta)) /\
     app st' = [] /\ listening st' = None) /\
  (exists st',
     startServer Sample.world_broken_facade (boot Sample.world_broken_facade Sample.development) = Exited 1 st' /\
     (exists msg meta, last (logged st') = Some (mkLog Error msg meta)) /\
     app st' = [] /\ listening st' = None).
Proof.
  split.
  - apply (fatal_init_exits_before_mount Sample.world (Sample.production_with_blob "{")).
    left. exists Sample.syntax_error. apply credential_unreadable. vm_compute. reflexivity.
  - apply (fatal_init_exits_before_mount Sample.world_broken_facade Sample.development).
    right. exists (Js.Obj [("db", Js.Str "firestore")]).
    eexists. split; [|split].
    + eexists. eexists. repeat split; vm_compute; reflexivity.
    + reflexivity.
    + reflexivity.
Defined.

Example startServer_sample_listens :
  exists st, startServer Sample.world (boot Sample.world Sample.development) = Ret tt st /\
             listening st = Some (Js.Str "8080") /\
             map layer_name (app st) =
               ["security"; "logging"; "express.json"; "express.urlencoded"; "cors";
                "/api/cors-test"; "/api/auth"; "/api/users"; "/api/sleep";
                "/api/competitions"; "/api/notifications"; "/api/invitations";
                "/api/health"; "errorHandler"] /\
             last (logged st) =
               Some (mkLog Info "Server running on port 8080 in development mode vibe" Js.Undefined).
Proof.
  eexists. split.
  - apply (startServer_success Sample.world Sample.development
             (Js.Obj [("db", Js.Str "firestore")]) Sample.facade).
    + eexists. eexists. repeat split; vm_compute; reflexivity.
    + reflexivity.
    + reflexivity.
  - repeat split.
Qed.

(** ** Credential source *)

Lemma getenv_Some (e : gmap string string) k s :
  e !! k = Some s -> getenv e k = Js.Str s.
Proof. unfold getenv. by intros ->. Qed.

Lemma getenv_None (e : gmap string string) k :
  e !! k = None -> getenv e k = Js.Undefined.
Proof. unfold getenv. by intros ->. Qed.

Lemma is_production_true (e : gmap string string) :
  is_production e = true <-> e !! "NODE_ENV" = Some "production".
Proof.
  unfold is_production, getenv.
  destruct (e !! "NODE_ENV") as [s|] eqn:E; simpl.
  - rewrite String.eqb_eq. split; congruence.
  - split; discriminate.
Qed.

Lemma is_production_false (e : gmap string string) :
  is_production e = false <-> e !! "NODE_ENV" <> Some "production".
Proof.
  rewrite <- is_production_true. destruct (is_production e); split; congruence.
Qed.

Lemma truthy_Str s : Js.truthy (Js.Str s) = true <-> s <> "".
Proof.
  simpl. rewrite negb_true_iff. split.
  - intros H ->. discriminate.
  - intros H. by apply String.eqb_neq.
Qed.

(** C4, as the code has it.  The blob is used exactly when the mode is
    production and the variable FIREBASE_SERVICE_ACCOUNT holds a
    non-empty string: the service account is then the result of
    [JSON.parse] on that string.  In every other case (another mode, the
    variable not set, or set to the empty string) it is the result of
    [require('./serviceAccountKey.json')]. *)
Theorem credential_source_selection X (e : gmap string string) :
  (forall blob,
      e !! "NODE_ENV" = Some "production" ->
      e !! "FIREBASE_SERVICE_ACCOUNT" = Some blob -> blob <> "" ->
      credentialSource e = EnvBlob blob /\
      load_serviceAccount X e = JSON_parse X blob) /\
  (e !! "NODE_ENV" <> Some "production" \/
   e !! "FIREBASE_SERVICE_ACCOUNT" = None \/
   e !! "FIREBASE_SERVICE_ACCOUNT" = Some "" ->
   credentialSource e = LocalFile "./serviceAccountKey.json" /\
   load_serviceAccount X e = require_json X "./serviceAccountKey.json").
Proof.
  split.
  - intros blob Hmode Hblob Hne.
    assert (credentialSource e = EnvBlob blob) as Hsrc.
    { unfold credentialSource, Js.and.
      apply is_production_true in Hmode. rewrite Hmode. simpl.
      rewrite (getenv_Some _ _ _ Hblob).
      apply truthy_Str in Hne. by rewrite Hne. }
    split; [done|]. unfold load_serviceAccount. by rewrite Hsrc.
  - intros H.
    assert (credentialSource e = LocalFile "./serviceAccountKey.json") as Hsrc.
    { unfold credentialSource, Js.and.
      destruct H as [H | [H | H]].
      - apply is_production_false in H. by rewrite H.
      - rewrite (getenv_None _ _ H). by destruct (is_production e).
      - rewrite (getenv_Some _ _ _ H). by destruct (is_production e). }
    split; [done|]. unfold load_serviceAccount. by rewrite Hsrc.
Qed.

Lemma credential_source_selection_witness :
  (credentialSource (Sample.production_with_blob "{}") = EnvBlob "{}" /\
   load_serviceAccount Sample.world (Sample.production_with_blob "{}") =
     JSON_parse Sample.world "{}") /\
  (credentialSource Sample.development = LocalFile "./serviceAccountKey.json" /\
   load_serviceAccount Sample.world Sample.development =
     require_json Sample.world "./serviceAccountKey.json").
Proof.
  split.
  - apply (proj1 (credential_source_selection Sample.world
                    (Sample.production_with_blob "{}")) "{}").
    + vm_compute. reflexivity.
    + vm_compute. reflexivity.
    + discriminate.
  - apply (proj2 (credential_source_selection Sample.world Sample.development)).
    left. vm_compute. discriminate.
Defined.

(** C4 as the specification words it fails when the variable is set to
    the empty string: the mode is production and the variable is present,
    yet the local file is used. *)
Lemma credential_source_empty_blob :
  Sample.production_with_blob "" !! "NODE_ENV" = Some "production" /\
  Sample.production_with_blob "" !! "FIREBASE_SERVICE_ACCOUNT" = Some "" /\
  credentialSource (Sample.production_with_blob "") <> EnvBlob "" /\
  credentialSource (Sample.production_with_blob "") = LocalFile "./serviceAccountKey.json" /\
  load_serviceAccount Sample.world (Sample.production_with_blob "") =
    require_json Sample.world "./serviceAccountKey.json".
Proof. vm_compute. repeat split. discriminate. Qed.

(** ** The façade check *)

Lemma typeof_function v :
  Js.typeof v = "function" <-> exists props, v = Js.Fun props.
Proof.
  split.
  - destruct v; simpl; try discriminate. eauto.
  - by intros [props ->].
Qed.

Lemma facade_accepted_iff fu :
  facade_rejected fu = false <->
  Js.truthy fu = true /\ exists props, Js.get fu "queryDocuments" = Js.Fun props.
Proof.
  unfold facade_rejected. rewrite orb_false_iff, !negb_false_iff.
  rewrite String.eqb_eq, typeof_function. tauto.
Qed.

(** C8.  Once the store is initialised and the [firestoreUtils] module has
    returned [fu], [startServer] gets past the check of line 71 (and then
    registers the whole stack and starts the listener) exactly when [fu]
    is truthy and its [queryDocuments] property is a function.  No other
    property of [fu] is looked at. *)
Theorem facade_check_exact X env0 fs fu :
  let e := dotenv_config (dotenv_file X) env0 in
  InitSuccess X e fs ->
  firestoreUtils_module X fs = Returns fu ->
  (Js.truthy fu = true /\ exists props, Js.get fu "queryDocuments" = Js.Fun props)
  <->
  (exists st, startServer X (boot X env0) = Ret tt st /\
              app st = build_stack X fu /\ is_Some (listening st)).
Proof.
  intros e Hinit Hfu. rewrite <- facade_accepted_iff. split.
  - intros Hok. eexists. split.
    + by apply (startServer_success X env0 fs fu).
    + simpl. eauto.
  - intros (st & Hrun & _).
    destruct (facade_rejected fu) eqn:Hrej; [|done].
    rewrite (startServer_facade_rejected X env0 fs fu Hinit Hfu Hrej) in Hrun.
    discriminate.
Qed.

Lemma facade_check_exact_witness :
  (Js.truthy Sample.facade = true /\
   exists props, Js.get Sample.facade "queryDocuments" = Js.Fun props)
  <->
  (exists st, startServer Sample.world (boot Sample.world Sample.development) = Ret tt st /\
              app st = build_stack Sample.world Sample.facade /\ is_Some (listening st)).
Proof.
  apply (facade_check_exact Sample.world Sample.development
           (Js.Obj [("db", Js.Str "firestore")]) Sample.facade).
  - eexists. eexists. repeat split; vm_compute; reflexivity.
  - reflexivity.
Defined.

(** A façade with [queryDocuments] alone passes; one with the other
    operations but without it does not. *)
Example facade_check_examples :
  facade_rejected (Js.Obj [("queryDocuments", Js.Fun [])]) = false /\
  facade_rejected (Js.Obj [("createDocument", Js.Fun []); ("updateDocument", Js.Fun [])]) = true /\
  facade_rejected (Js.Obj [("queryDocuments", Js.Str "not a function")]) = true /\
  facade_rejected Js.Undefined = true /\
  facade_rejected (Js.Obj []) = true.
Proof. repeat split. Qed.

(** ** The request pipeline *)

Lemma run_app ctx l1 l2 err rq rs :
  run ctx (l1 ++ l2) err rq rs =
    match run ctx l1 err rq rs with
    | (Pending err' rq' rs', tr) =>
        let '(f, tr') := run ctx l2 err' rq' rs' in (f, tr ++ tr')
    | (f, tr) => (f, tr)
    end.
Proof.
  revert err rq rs. induction l1 as [|l l1 IH]; intros err rq rs.
  - simpl. by destruct (run ctx l2 err rq rs).
  - assert (forall n o,
      continue n o (run ctx (l1 ++ l2)) =
        match continue n o (run ctx l1) with
        | (Pending err' rq' rs', tr) =>
            let '(f, tr') := run ctx l2 err' rq' rs' in (f, tr ++ tr')
        | (f, tr) => (f, tr)
        end) as Hcont.
    { intros n [rq' rs' | e rq' rs' | rs']; simpl; [| |done].
      - rewrite IH. destruct (run ctx l1 None rq' rs') as [[e1 rq1 rs1|r1|rq1 rs1] tr1]; [|done..].
        by destruct (run ctx l2 e1 rq1 rs1).
      - destruct (Js.is_str (layerError e) "router"); [done|].
        rewrite IH.
        destruct (run ctx l1 _ rq' rs') as [[e1 rq1 rs1|r1|rq1 rs1] tr1]; [|done..].
        by destruct (run ctx l2 e1 rq1 rs1). }
    simpl. destruct err as [e|], l as [n h|p h|p h|n h]; try apply IH; try apply Hcont.
    + destruct (under_prefix p (req_path rq)); [apply Hcont | apply IH].
    + destruct (is_get (req_method rq) && String.eqb (req_path rq) p);
        [apply Hcont | apply IH].
Qed.

Lemma run_use ctx n h rest rq rs :
  run ctx (Use n h :: rest) None rq rs = continue n (h ctx rq rs) (run ctx rest).
Proof. reflexivity. Qed.

(** With an error pending, the part of the stack [index.js] registers
    itself skips everything up to the global error handler, which is
    entered. *)
Lemma run_from_cors_error X fu ctx e rq rs :
  run ctx (from_cors X fu) (Some e) rq rs =
    continue "errorHandler" (errorHandler ctx e rq rs) (run ctx []).
Proof. reflexivity. Qed.

(** The two ways of the global error handler: it sends its response
    when [res.status] accepts the code, and throws what [res.status]
    throws otherwise. *)
Lemma errorHandler_cases ctx e rq rs :
  errorHandler ctx e rq rs =
    let code := Js.or (Js.get e "statusCode") (Js.Num 500) in
    if accepts_status code
    then Sent (res_json (Js.Obj (errorResponse_of ctx e rq))
                 {| res_status := code; res_headers := res_headers rs |})
    else NextErr (invalid_status_code code) rq rs.
Proof.
  unfold errorHandler, send_with_status, res_set_status. cbn zeta.
  by destruct (accepts_status _).
Qed.

Lemma errorHandler_response ctx e rq rs :
  accepts_status (Js.or (Js.get e "statusCode") (Js.Num 500)) = true ->
  bodiless (Js.or (Js.get e "statusCode") (Js.Num 500)) = false ->
  errorHandler ctx e rq rs =
    Sent {| status := Js.or (Js.get e "statusCode") (Js.Num 500);
            headers := res_headers rs;
            body := JsonBody (Js.Obj (errorResponse_of ctx e rq)) |}.
Proof.
  intros H Hb. rewrite errorHandler_cases. cbn zeta. rewrite H.
  unfold res_json. cbn [res_status res_headers]. by rewrite Hb.
Qed.

(** The code the handler hands to [res.status] is accepted, and allows
    a body, when the error has no truthy [statusCode], or one that is
    such a code. *)
Lemma accepts_statusCode e :
  Js.truthy (Js.get e "statusCode") = false \/
  (accepts_status (Js.get e "statusCode") = true /\
   bodiless (Js.get e "statusCode") = false) ->
  accepts_status (Js.or (Js.get e "statusCode") (Js.Num 500)) = true /\
  bodiless (Js.or (Js.get e "statusCode") (Js.Num 500)) = false.
Proof.
  unfold Js.or. intros [H | [H Hb]].
  - by rewrite H.
  - by destruct (Js.truthy (Js.get e "statusCode")).
Qed.

(** An error that reaches the global error handler is answered there or,
    when the handler throws, by Express's last resort; no other layer is
    entered. *)
Lemma dispatch_error X fu ctx e rq rs :
  dispatch ctx (from_cors X fu) (Some e) rq rs = (error_answer ctx e rq rs, ["errorHandler"]).
Proof.
  unfold dispatch, error_answer. rewrite run_from_cors_error, errorHandler_cases.
  cbn zeta. by destruct (accepts_status _).
Qed.

Lemma errorResponse_fields ctx e rq :
  let props := errorResponse_of ctx e rq in
  Js.assoc "error" props = Js.or (Js.get e "message") (Js.Str "Internal server error") /\
  Js.assoc "requestId" props = req_id rq /\
  Js.has_key "error" props = true /\
  Js.has_key "requestId" props = true /\
  Js.has_key "stack" props = negb (is_production (ctx_env ctx)) /\
  Js.assoc "stack" props =
    (if is_production (ctx_env ctx) then Js.Undefined else Js.get e "stack").
Proof.
  unfold errorResponse_of. simpl.
  by destruct (is_production (ctx_env ctx)).
Qed.

(** C2, as the code has it.  An error (a truthy value: a falsy argument
    of [next] is none) pending in the stack [index.js] registers enters
    the global error handler and no other layer.  The
    handler hands [res.status] the error's [statusCode] when that is
    truthy and 500 otherwise (so also for a [statusCode] of 0).  When
    that code is an integer from 100 to 999 it is the status of the
    response, and the body is a JSON object whose [error] is the error's
    [message] when that is truthy and the fallback text otherwise, and
    whose [requestId] is [req.id]; the object carries a [stack] property
    exactly when the mode is not production, holding the error's
    [stack], and the JSON text shows it only if the error has one.  With
    a status that allows no body (1xx, 204, 205, 304) none is written.
    For any other code [res.status] throws: the handler sends nothing
    and the response is the error page of Express's last resort, with
    the error status already on the response or else 500, and without
    the message and the request identifier. *)
Theorem error_envelope X fu ctx e rq rs :
  Js.truthy e = true ->
  let code :=
    if Js.truthy (Js.get e "statusCode") then Js.get e "statusCode" else Js.Num 500 in
  exists resp,
    dispatch ctx (from_cors X fu) (Some e) rq rs = (resp, ["errorHandler"]) /\
    (accepts_status code = true ->
     status resp = code /\
     (bodiless code = true -> body resp = NoBody) /\
     (bodiless code = false ->
      exists props,
        body resp = JsonBody (Js.Obj props) /\
        Js.assoc "error" props =
          (if Js.truthy (Js.get e "message") then Js.get e "message"
           else Js.Str "Internal server error") /\
        Js.assoc "requestId" props = req_id rq /\
        Js.has_key "stack" props = negb (is_production (ctx_env ctx)) /\
        Js.written "stack" props =
          negb (is_production (ctx_env ctx)) && Js.serialisable (Js.get e "stack") /\
        Js.written "requestId" props = Js.serialisable (req_id rq))) /\
    (accepts_status code = false ->
     status resp = (if in_range (res_status rs) then res_status rs else Js.Num 500) /\
     body resp = ErrorPage (invalid_status_code code)).
Proof.
  intros _ code. exists (error_answer ctx e rq rs).
  split; [apply dispatch_error|].
  unfold error_answer. fold (Js.or (Js.get e "statusCode") (Js.Num 500)) in code.
  fold code. split; intros Hcode; rewrite Hcode.
  - unfold res_json. cbn [status body res_status res_headers].
    split; [reflexivity|]. split; intros Hb; rewrite Hb; [reflexivity|].
    exists (errorResponse_of ctx e rq).
    destruct (errorResponse_fields ctx e rq) as (He & Hi & Hke & Hki & Hks & Hs).
    unfold Js.written. rewrite He, Hi, Hki, Hks, Hs.
    repeat split; try reflexivity.
    by destruct (is_production (ctx_env ctx)).
  - split; reflexivity.
Qed.

Lemma error_envelope_witness :
  let rq := SampleRequests.request "GET" "/api/users/7" ∅ in
  exists resp props,
    dispatch SampleRequests.prod (from_cors Sample.world Sample.facade)
      (Some Sample.not_found) rq fresh_res = (resp, ["errorHandler"]) /\
    status resp = Js.Num 404 /\
    body resp = JsonBody (Js.Obj props) /\
    Js.assoc "error" props = Js.Str "User not found" /\
    Js.written "stack" props = false.
Proof.
  intros rq.
  destruct (error_envelope Sample.world Sample.facade SampleRequests.prod
              Sample.not_found rq fresh_res eq_refl) as (resp & Hd & Hok & _).
  destruct (Hok eq_refl) as (Hst & _ & Hbody).
  destruct (Hbody eq_refl) as (props & Hb & He & _ & _ & Hw & _).
  exists resp, props. auto.
Defined.

(** C2 as the specification words it fails on an error whose status code
    is present and 0 (the response status is 500), on a thrown object
    without a stack outside production (the JSON text has no stack
    field), and on an error whose status code is present and 42: the
    response has status 500 and is Express's error page, which carries
    neither the message nor the request identifier. *)
Lemma error_envelope_counterexample :
  let rq := SampleRequests.request "GET" "/api/users/7" ∅ in
  (Js.get SampleRequests.status_zero "statusCode" = Js.Num 0 /\
   exists resp,
     errorHandler SampleRequests.prod SampleRequests.status_zero rq fresh_res = Sent resp /\
     status resp = Js.Num 500) /\
  (is_production (ctx_env SampleRequests.dev) = false /\
   Js.written "stack" (errorResponse_of SampleRequests.dev SampleRequests.plain_object rq)
     = false) /\
  (Js.get SampleRequests.status_42 "statusCode" = Js.Num 42 /\
   dispatch SampleRequests.prod (from_cors Sample.world Sample.facade)
     (Some SampleRequests.status_42) rq fresh_res
   = ({| status := Js.Num 500; headers := ∅;
         body := ErrorPage (invalid_status_code (Js.Num 42)) |}, ["errorHandler"])).
Proof.
  intros rq. split; [|split].
  - split; [reflexivity|]. eexists. split; reflexivity.
  - split; reflexivity.
  - split; [reflexivity|]. rewrite dispatch_error. reflexivity.
Qed.

Example error_envelope_404 :
  let rq := SampleRequests.request "GET" "/api/users/7" ∅ in
  errorHandler SampleRequests.prod Sample.not_found rq fresh_res =
    Sent {| status := Js.Num 404; headers := ∅;
            body := JsonBody (Js.Obj [("error", Js.Str "User not found");
                                      ("requestId", Js.Undefined)]) |} /\
  errorHandler SampleRequests.dev Sample.not_found rq fresh_res =
    Sent {| status := Js.Num 404; headers := ∅;
            body := JsonBody (Js.Obj [("error", Js.Str "User not found");
                                      ("requestId", Js.Undefined);
                                      ("stack", Js.Str "Error: User not found\n    at users.js:10")]) |}.
Proof. vm_compute. repeat split. Qed.

(** What [res.status] throws, on two codes it does not accept. *)
Example invalid_status_code_messages :
  invalid_status_code (Js.Num 42) =
    Js.Obj [("message",
             Js.Str "Invalid status code: 42. Status code must be greater than 99 and less than 1000.")] /\
  Js.get (invalid_status_code (Js.Str "404")) "message" =
    Js.Str (("Invalid status code: " +:+ Json.quoted "404")
            +:+ ". Status code must be an integer.").
Proof. vm_compute. repeat split. Qed.

(** An error with a status that allows no body gets none. *)
Example error_without_body :
  errorHandler SampleRequests.prod (Js.Obj [("statusCode", Js.Num 204)])
    (SampleRequests.request "GET" "/api/sleep" ∅) fresh_res
  = Sent {| status := Js.Num 204; headers := ∅; body := NoBody |}.
Proof. reflexivity. Qed.

(** C10, as the code has it.  When the error has no [message], or an
    empty one, and its [statusCode] is falsy or an integer from 100 to
    999 that allows a body, the global error handler sends a body whose
    [error] field is the text 'Internal server error'. *)
Theorem error_message_fallback ctx e rq rs :
  Js.get e "message" = Js.Undefined \/ Js.get e "message" = Js.Str "" ->
  Js.truthy (Js.get e "statusCode") = false \/
  (accepts_status (Js.get e "statusCode") = true /\
   bodiless (Js.get e "statusCode") = false) ->
  exists resp props,
    errorHandler ctx e rq rs = Sent resp /\
    body resp = JsonBody (Js.Obj props) /\
    Js.assoc "error" props = Js.Str "Internal server error" /\
    Js.written "error" props = true.
Proof.
  intros H Hcode. eexists. exists (errorResponse_of ctx e rq).
  destruct (errorResponse_fields ctx e rq) as (He & _ & Hke & _).
  unfold Js.written. rewrite Hke, He.
  destruct (accepts_statusCode e Hcode) as [Hok Hb].
  split; [by apply errorHandler_response|].
  split; [reflexivity|].
  by destruct H as [-> | ->].
Qed.

Lemma error_message_fallback_witness :
  exists resp props,
    errorHandler SampleRequests.prod SampleRequests.no_message
      (SampleRequests.request "POST" "/api/sleep" ∅) fresh_res = Sent resp /\
    body resp = JsonBody (Js.Obj props) /\
    Js.assoc "error" props = Js.Str "Internal server error" /\
    Js.written "error" props = true.
Proof.
  apply (error_message_fallback SampleRequests.prod SampleRequests.no_message).
  - left. reflexivity.
  - right. split; reflexivity.
Defined.

(** C10 as the specification words it fails on an error without a
    message whose status code is 42: [res.status] throws, the handler
    sends nothing, and the response is Express's error page with status
    500, which has no [error] field. *)
Lemma error_message_fallback_counterexample :
  let rq := SampleRequests.request "POST" "/api/sleep" ∅ in
  Js.get SampleRequests.status_42 "message" = Js.Undefined /\
  errorHandler SampleRequests.prod SampleRequests.status_42 rq fresh_res
    = NextErr (invalid_status_code (Js.Num 42)) rq fresh_res /\
  (forall resp, errorHandler SampleRequests.prod SampleRequests.status_42 rq fresh_res
                <> Sent resp) /\
  dispatch SampleRequests.prod (from_cors Sample.world Sample.facade)
    (Some SampleRequests.status_42) rq fresh_res
  = ({| status := Js.Num 500; headers := ∅;
        body := ErrorPage (invalid_status_code (Js.Num 42)) |}, ["errorHandler"]).
Proof.
  intros rq. split; [reflexivity|]. split; [reflexivity|]. split.
  - intros resp H. discriminate H.
  - rewrite dispatch_error. reflexivity.
Qed.

(** ** The reflective CORS middleware *)

(** The middleware answers an OPTIONS request itself and hands every
    other request on; either way the five headers are set. *)
Lemma corsMiddleware_cases ctx rq rs :
  corsMiddleware ctx rq rs =
    if String.eqb (req_method rq) "OPTIONS"
    then Sent {| status := Js.Num 200;
                 headers := with_cors_headers rq (res_headers rs);
                 body := NoBody |}
    else Next rq {| res_status := res_status rs;
                    res_headers := with_cors_headers rq (res_headers rs) |}.
Proof. reflexivity. Qed.

Lemma corsMiddleware_headers ctx rq rs :
  headers_of (corsMiddleware ctx rq rs) = with_cors_headers rq (res_headers rs).
Proof.
  rewrite corsMiddleware_cases. by destruct (String.eqb (req_method rq) "OPTIONS").
Qed.

Lemma with_cors_headers_allow_origin rq hs :
  with_cors_headers rq hs !! "Access-Control-Allow-Origin"
  = Some (JsString.to_string (Js.or (origin rq) (Js.Str "*"))).
Proof. unfold with_cors_headers. by simplify_map_eq. Qed.

Lemma with_cors_headers_all rq hs h :
  h ∈ cors_headers -> is_Some (with_cors_headers rq hs !! h).
Proof.
  unfold cors_headers, with_cors_headers. intros Hin.
  repeat (apply elem_of_cons in Hin as [-> | Hin]; [by simplify_map_eq|]).
  by apply elem_of_nil in Hin.
Qed.

(** C5, as the code has it.  The middleware sets
    Access-Control-Allow-Origin to the request's Origin header when that
    is a non-empty string, and to "*" when the request has no Origin
    header or an empty one; it sets Access-Control-Allow-Credentials to
    "true"; and it does the same whatever the environment (the mode
    included) and the clock. *)
Theorem cors_reflects_origin ctx ctx' rq rs :
  let hs := headers_of (corsMiddleware ctx rq rs) in
  (forall o, req_headers rq !! "origin" = Some o -> o <> "" ->
             hs !! "Access-Control-Allow-Origin" = Some o) /\
  (req_headers rq !! "origin" = None \/ req_headers rq !! "origin" = Some "" ->
   hs !! "Access-Control-Allow-Origin" = Some "*") /\
  hs !! "Access-Control-Allow-Credentials" = Some "true" /\
  corsMiddleware ctx' rq rs = corsMiddleware ctx rq rs.
Proof.
  intros hs. unfold hs. rewrite corsMiddleware_headers. repeat split.
  - intros o Ho Hne. rewrite with_cors_headers_allow_origin.
    unfold origin, Js.or. rewrite Ho.
    apply truthy_Str in Hne. by rewrite Hne.
  - intros [H | H]; rewrite with_cors_headers_allow_origin;
      unfold origin, Js.or; by rewrite H.
  - unfold with_cors_headers. by simplify_map_eq.
Qed.

Lemma cors_reflects_origin_witness :
  let rq1 := SampleRequests.request "GET" "/api/sleep" SampleRequests.from_localhost in
  let rq2 := SampleRequests.request "GET" "/api/sleep" ∅ in
  headers_of (corsMiddleware SampleRequests.prod rq1 fresh_res)
    !! "Access-Control-Allow-Origin" = Some "http://localhost:5173" /\
  headers_of (corsMiddleware SampleRequests.prod rq2 fresh_res)
    !! "Access-Control-Allow-Origin" = Some "*".
Proof.
  split.
  - apply (proj1 (cors_reflects_origin SampleRequests.prod SampleRequests.dev
             (SampleRequests.request "GET" "/api/sleep" SampleRequests.from_localhost)
             fresh_res)).
    + vm_compute. reflexivity.
    + discriminate.
  - apply (proj1 (proj2 (cors_reflects_origin SampleRequests.prod SampleRequests.dev
             (SampleRequests.request "GET" "/api/sleep" ∅) fresh_res))).
    left. vm_compute. reflexivity.
Defined.

(** C5 as the specification words it fails on a request whose Origin
    header is present and empty: the header set is "*", not the value of
    the Origin header. *)
Lemma cors_empty_origin_counterexample :
  let rq := SampleRequests.request "GET" "/api/sleep" SampleRequests.empty_origin in
  req_headers rq !! "origin" = Some "" /\
  headers_of (corsMiddleware SampleRequests.prod rq fresh_res)
    !! "Access-Control-Allow-Origin" = Some "*".
Proof. vm_compute. repeat split. Qed.

(** ** Requests that reach the part of the stack [index.js] registers *)

(** When the stages registered ahead of the reflective CORS middleware
    hand a request on, the answer is the one the rest of the stack gives
    to the request as they left it. *)
Lemma handle_through_upstream X fu ctx rq rq' rs' tr :
  run ctx (upstream X) None rq fresh_res = (Pending None rq' rs', tr) ->
  handle ctx (build_stack X fu) rq =
    let '(r, tr') := dispatch ctx (from_cors X fu) None rq' rs' in (r, tr ++ tr').
Proof.
  intros Hup. unfold handle, dispatch, build_stack.
  rewrite run_app, Hup.
  by destruct (run ctx (from_cors X fu) None rq' rs').
Qed.

(** C3.  An OPTIONS request that the earlier stages hand on to the
    reflective CORS middleware is answered there: status 200, no body,
    the five CORS headers set (Access-Control-Allow-Origin as the
    middleware computes it).  The middleware is the last layer entered:
    no route group and no endpoint sees the request, whatever its path
    and whatever the route modules are. *)
Theorem options_preflight X fu ctx rq rq' rs' tr :
  run ctx (upstream X) None rq fresh_res = (Pending None rq' rs', tr) ->
  req_method rq' = "OPTIONS" ->
  exists resp,
    handle ctx (build_stack X fu) rq = (resp, tr ++ ["cors"]) /\
    status resp = Js.Num 200 /\
    body resp = NoBody /\
    (forall h, h ∈ cors_headers -> is_Some (headers resp !! h)) /\
    headers resp !! "Access-Control-Allow-Origin"
      = Some (JsString.to_string (Js.or (origin rq') (Js.Str "*"))).
Proof.
  intros Hup Hm.
  rewrite (handle_through_upstream X fu ctx rq rq' rs' tr Hup).
  unfold dispatch, from_cors. simpl.
  rewrite corsMiddleware_cases, Hm. simpl.
  eexists. split; [reflexivity|]. simpl.
  repeat split.
  - intros h. apply with_cors_headers_all.
  - apply with_cors_headers_allow_origin.
Qed.

Lemma without_content_headers_lookup (hs : gmap string string) k :
  k ∉ content_headers -> without_content_headers hs !! k = hs !! k.
Proof.
  unfold without_content_headers, content_headers. intros Hk. simpl.
  rewrite !lookup_delete_ne; [done|..]; intros <-; apply Hk; set_solver.
Qed.

(** Express's last resort takes no header off the response but the
    three content headers. *)
Lemma finalhandler_keeps_headers (D : gset string) err rq rs :
  (forall k, k ∈ D -> k ∉ content_headers) ->
  D ⊆ dom (res_headers rs) ->
  D ⊆ dom (headers (finalhandler err rq rs)).
Proof.
  intros HD Hs k Hk. apply elem_of_dom.
  assert (headers (finalhandler err rq rs) = without_content_headers (res_headers rs))
    as -> by (by destruct err).
  rewrite without_content_headers_lookup by auto.
  by apply elem_of_dom, Hs.
Qed.

Lemma continue_keeps_headers ctx n o rest (D : gset string) :
  (forall k, k ∈ D -> k ∉ content_headers) ->
  (forall err rq rs, D ⊆ dom (res_headers rs) ->
                     D ⊆ dom (headers (finish (run ctx rest err rq rs).1))) ->
  D ⊆ dom (headers_of o) ->
  D ⊆ dom (headers (finish (continue n o (run ctx rest)).1)).
Proof.
  intros HD IH Ho. destruct o as [rq rs | e rq rs | r]; simpl in *.
  - specialize (IH None rq rs Ho). by destruct (run ctx rest None rq rs).
  - destruct (Js.is_str (layerError e) "router").
    + by apply (finalhandler_keeps_headers D None).
    + specialize (IH (if Js.truthy (layerError e) then Some (layerError e) else None)
                     rq rs Ho).
      by destruct (run ctx rest _ rq rs).
  - done.
Qed.

(** Headers present on the response (the three content headers apart)
    stay on it through any stack whose layers keep headers, up to the
    response that is sent. *)
Lemma run_keeps_headers ctx stack (D : gset string) :
  (forall k, k ∈ D -> k ∉ content_headers) ->
  Forall layer_keeps_headers stack ->
  forall err rq rs,
    D ⊆ dom (res_headers rs) ->
    D ⊆ dom (headers (finish (run ctx stack err rq rs).1)).
Proof.
  intros Hcontent.
  induction 1 as [|l rest Hl _ IH]; intros err rq rs HD.
  - by apply finalhandler_keeps_headers.
  - simpl. destruct err as [e|], l as [n h|p h|p h|n h]; simpl in Hl;
      try (by apply IH).
    + apply continue_keeps_headers; [done..|].
      etrans; [exact HD | apply (Hl e)].
    + apply continue_keeps_headers; [done..|]. etrans; [exact HD | apply Hl].
    + destruct (under_prefix p (req_path rq)); [|by apply IH].
      apply continue_keeps_headers; [done..|]. etrans; [exact HD | apply Hl].
    + destruct (is_get (req_method rq) && String.eqb (req_path rq) p); [|by apply IH].
      apply continue_keeps_headers; [done..|]. etrans; [exact HD | apply Hl].
Qed.

Lemma errorHandler_headers ctx e rq rs :
  headers_of (errorHandler ctx e rq rs) = res_headers rs.
Proof. rewrite errorHandler_cases. simpl. by destruct (accepts_status _). Qed.

Lemma from_cors_keeps_headers X fu :
  (forall p, keeps_headers (route_module X p fu)) ->
  Forall layer_keeps_headers (from_cors X fu).
Proof.
  intros Hroutes. unfold from_cors, route_groups, route_prefixes. simpl.
  repeat apply Forall_cons_2; try apply Forall_nil_2; simpl;
    try apply Hroutes.
  - intros ctx rq rs. rewrite corsMiddleware_headers.
    unfold with_cors_headers. rewrite !dom_insert. set_solver.
  - by intros ctx rq rs.
  - by intros ctx rq rs.
  - intros e ctx rq rs. by rewrite errorHandler_headers.
Qed.

Lemma cors_header_no_content_header h :
  h ∈ cors_headers -> h ∉ content_headers.
Proof.
  unfold cors_headers, content_headers. intros Hin.
  repeat (apply elem_of_cons in Hin as [-> | Hin];
          [intros Hc;
           repeat (apply elem_of_cons in Hc as [Hc | Hc]; [discriminate|]);
           by apply elem_of_nil in Hc|]).
  by apply elem_of_nil in Hin.
Qed.


Lemma options_preflight_witness :
  let rq := SampleRequests.request "OPTIONS" "/api/sleep/summary" SampleRequests.from_localhost in
  exists resp,
    handle SampleRequests.prod (build_stack Sample.world Sample.facade) rq
      = (resp, ["security"; "logging"; "express.json"; "express.urlencoded"] ++ ["cors"]) /\
    status resp = Js.Num 200 /\
    body resp = NoBody /\
    (forall h, h ∈ cors_headers -> is_Some (headers resp !! h)) /\
    headers resp !! "Access-Control-Allow-Origin" = Some "http://localhost:5173".
Proof.
  intros rq.
  apply (options_preflight Sample.world Sample.facade SampleRequests.prod rq
           (SampleRequests.tagged rq) fresh_res).
  - vm_compute. reflexivity.
  - reflexivity.
Defined.

Lemma sample_router_keeps_headers p :
  keeps_headers (Sample.router p Sample.facade).
Proof.
  intros ctx rq rs. unfold Sample.router.
  by destruct (String.eqb p "/api/users").
Qed.


(** C3 as the specification words it fails on an OPTIONS request that
    an earlier stage turns down: when the body parser rejects the
    payload, the reflective CORS middleware is never entered, and the
    global error handler answers with status 400, a JSON body and none
    of the CORS headers. *)
Lemma options_preflight_counterexample :
  let rq := SampleRequests.request "OPTIONS" "/api/sleep" SampleRequests.from_localhost in
  req_method rq = "OPTIONS" /\
  handle SampleRequests.prod (build_stack SampleUpstream.world Sample.facade) rq
  = ({| status := Js.Num 400; headers := ∅;
        body := JsonBody (Js.Obj
          [("error", Js.Str "Unexpected token } in JSON at position 12");
           ("requestId", Js.Str "req-1")]) |},
     ["security"; "logging"; "express.json"; "errorHandler"]) /\
  (forall h, h ∈ cors_headers ->
     headers (handle SampleRequests.prod
                (build_stack SampleUpstream.world Sample.facade) rq).1 !! h = None).
Proof.
  intros rq. split; [reflexivity|]. split; [reflexivity|].
  intros h _. exact (lookup_empty h).
Qed.


(** The same request, run: the users router raises its 404 error, the
    global error handler answers, and the five headers are on the
    response. *)
Example users_error_response :
  dispatch SampleRequests.prod (from_cors Sample.world Sample.facade) None
    (SampleRequests.request "GET" "/api/users/7" ∅) fresh_res
  = ({| status := Js.Num 404;
        headers := with_cors_headers (SampleRequests.request "GET" "/api/users/7" ∅) ∅;
        body := JsonBody (Js.Obj [("error", Js.Str "User not found");
                                  ("requestId", Js.Undefined)]) |},
     ["cors"; "/api/users"; "errorHandler"]).
Proof. reflexivity. Qed.

(** ** The health report *)

Lemma or_getenv e k d : Js.or (getenv e k) (Js.Str d) = Js.Str (setting e k d).
Proof.
  unfold Js.or, getenv, setting. destruct (e !! k) as [s|]; simpl; [|done].
  by destruct (String.eqb s "").
Qed.

Lemma or_origin rq d : Js.or (origin rq) (Js.Str d) = Js.Str (origin_or rq d).
Proof.
  unfold Js.or, origin, origin_or. destruct (req_headers rq !! "origin") as [s|]; simpl; [|done].
  by destruct (String.eqb s "").
Qed.

Lemma allowedOrigins_list e :
  allowedOrigins e =
    Js.Arr (map Js.Str
      (split_on ","
         (if is_production e
          then setting e "ALLOWED_ORIGINS" "https://pilves.github.io,https://api.chaidla.ee"
          else setting e "DEV_ALLOWED_ORIGINS" "http://localhost:5173,http://localhost:5000"))).
Proof.
  unfold allowedOrigins. rewrite !or_getenv. by destruct (is_production e).
Qed.

Lemma healthHandler_response ctx rq rs :
  healthHandler ctx rq rs =
    Sent {| status := Js.Num 200; headers := res_headers rs;
            body := JsonBody (Js.Obj
              [("status", Js.Str "ok");
               ("message", Js.Str "Sleep Olympics API is running");
               ("environment", Js.Str (setting (ctx_env ctx) "NODE_ENV" "development"));
               ("version", Js.Str (setting (ctx_env ctx) "npm_package_version" "1.0.0"));
               ("timestamp", Js.Str (Date.toISOString (ctx_now ctx)));
               ("corsOrigin", Js.Str (origin_or rq "No origin header"));
               ("allowedOrigins", allowedOrigins (ctx_env ctx))]) |}.
Proof. unfold healthHandler. by rewrite !or_getenv, or_origin. Qed.

(** The route of a GET /api/health request through the part of the stack
    [index.js] registers: the CORS middleware hands it on, no route group
    matches the path, the health endpoint answers. *)
Lemma run_from_cors_health X fu ctx rq rs :
  req_method rq = "GET" -> req_path rq = "/api/health" ->
  run ctx (from_cors X fu) None rq rs =
    (Done {| status := Js.Num 200;
             headers := with_cors_headers rq (res_headers rs);
             body := match healthHandler ctx rq rs with
                     | Sent r => body r
                     | _ => NoBody
                     end |},
     ["cors"; "/api/health"]).
Proof.
  intros Hm Hp. unfold from_cors, route_groups, route_prefixes.
  cbn [List.app map]. rewrite run_use, corsMiddleware_cases, Hm.
  cbn [run continue String.eqb Ascii.eqb Bool.eqb req_path req_method].
  rewrite Hm, Hp. reflexivity.
Qed.




(** ** Dates and their rendering *)

Module DateFacts.
Import Date.

Lemma civil_of_doe_eq doe : civil_of_doe doe = month_day (yoe_of doe) (doy_of doe).
Proof. reflexivity. Qed.

Lemma yoe_range doe : 0 <= doe < 146097 -> 0 <= yoe_of doe <= 399.
Proof. intros H. unfold yoe_of. Z.to_euclidean_division_equations; lia. Qed.

Lemma doy_range doe : 0 <= doe < 146097 -> 0 <= doy_of doe <= 365.
Proof. intros H. unfold doy_of, yoe_of. Z.to_euclidean_division_equations; lia. Qed.

Lemma yoe_doy_step doe :
  0 <= doe < 146096 ->
  (yoe_of (doe + 1) = yoe_of doe /\ doy_of (doe + 1) = doy_of doe + 1)
  \/ yoe_of doe < yoe_of (doe + 1).
Proof.
  intros H. unfold doy_of, yoe_of. Z.to_euclidean_division_equations; lia.
Qed.

Lemma month_day_range yoe doy :
  0 <= doy <= 365 ->
  let '(y, m, d) := month_day yoe doy in
  1 <= m <= 12 /\ 1 <= d <= 31 /\ yoe <= y <= yoe + 1.
Proof.
  intros H. unfold month_day.
  destruct ((5 * doy + 2) / 153 <? 10) eqn:E1;
  [apply Z.ltb_lt in E1 | apply Z.ltb_ge in E1];
  match goal with |- context [?a <=? 2] => destruct (Z.leb_spec a 2) end;
  Z.to_euclidean_division_equations; lia.
Qed.

Lemma month_day_step yoe doy :
  0 <= doy < 365 ->
  datekey (month_day yoe doy) < datekey (month_day yoe (doy + 1)).
Proof.
  intros H. unfold month_day, datekey.
  destruct ((5 * doy + 2) / 153 <? 10) eqn:E1;
  [apply Z.ltb_lt in E1 | apply Z.ltb_ge in E1];
  destruct ((5 * (doy + 1) + 2) / 153 <? 10) eqn:E2;
  [apply Z.ltb_lt in E2 | apply Z.ltb_ge in E2 | apply Z.ltb_lt in E2 | apply Z.ltb_ge in E2];
  repeat match goal with |- context [?a <=? 2] => destruct (Z.leb_spec a 2) end;
  Z.to_euclidean_division_equations; lia.
Qed.


Lemma civil_of_doe_range doe :
  0 <= doe < 146097 ->
  let '(y, m, d) := civil_of_doe doe in
  1 <= m <= 12 /\ 1 <= d <= 31 /\ 0 <= y <= 400.
Proof.
  intros H. rewrite civil_of_doe_eq.
  pose proof (yoe_range doe H) as Hy. pose proof (doy_range doe H) as Hd.
  pose proof (month_day_range (yoe_of doe) (doy_of doe) Hd) as Hr.
  destruct (month_day (yoe_of doe) (doy_of doe)) as [[y m] d]. lia.
Qed.

Lemma civil_of_doe_step doe :
  0 <= doe < 146096 ->
  datekey (civil_of_doe doe) < datekey (civil_of_doe (doe + 1)).
Proof.
  intros H. rewrite !civil_of_doe_eq.
  destruct (yoe_doy_step doe H) as [[Hy Hd] | Hy].
  - rewrite Hy, Hd. apply month_day_step.
    pose proof (doy_range doe ltac:(lia)). pose proof (doy_range (doe + 1) ltac:(lia)). lia.
  - pose proof (month_day_range (yoe_of doe) (doy_of doe) (doy_range doe ltac:(lia))) as H1.
    pose proof (month_day_range (yoe_of (doe + 1)) (doy_of (doe + 1))
                  (doy_range (doe + 1) ltac:(lia))) as H2.
    unfold month_day, datekey in *.
    repeat match goal with
           | |- context [?a <? 10] => destruct (Z.ltb_spec a 10)
           | |- context [?a <=? 2] => destruct (Z.leb_spec a 2)
           end; lia.
Qed.

Lemma civil_from_days_range z :
  let '(y, m, d) := civil_from_days z in 1 <= m <= 12 /\ 1 <= d <= 31.
Proof.
  unfold civil_from_days.
  pose proof (civil_of_doe_range ((z + 719468) mod daysPerEra)
                (Z.mod_pos_bound _ daysPerEra eq_refl)) as H.
  destruct (civil_of_doe ((z + 719468) mod daysPerEra)) as [[y m] d]. lia.
Qed.

Lemma civil_from_days_step z :
  datekey (civil_from_days z) < datekey (civil_from_days (z + 1)).
Proof.
  unfold civil_from_days.
  set (z' := z + 719468). replace (z + 1 + 719468) with (z' + 1) by (unfold z'; lia).
  pose proof (Z.mod_pos_bound z' daysPerEra eq_refl) as Hb.
  destruct (Z.eq_dec (z' mod daysPerEra) 146096) as [Hlast | Hne].
  - assert ((z' + 1) mod daysPerEra = 0 /\ (z' + 1) / daysPerEra = z' / daysPerEra + 1) as [Hm Hq].
    { unfold daysPerEra in *. Z.to_euclidean_division_equations; lia. }
    rewrite Hm, Hq, Hlast. vm_compute civil_of_doe. unfold datekey. lia.
  - assert ((z' + 1) mod daysPerEra = z' mod daysPerEra + 1 /\
            (z' + 1) / daysPerEra = z' / daysPerEra) as [Hm Hq].
    { unfold daysPerEra in *. Z.to_euclidean_division_equations; lia. }
    rewrite Hm, Hq.
    pose proof (civil_of_doe_step (z' mod daysPerEra) ltac:(unfold daysPerEra in *; lia)) as Hs.
    destruct (civil_of_doe (z' mod daysPerEra)) as [[y m] d].
    destruct (civil_of_doe (z' mod daysPerEra + 1)) as [[y2 m2] d2].
    unfold datekey in *. lia.
Qed.

Lemma civil_from_days_mono z1 z2 :
  z1 <= z2 -> datekey (civil_from_days z1) <= datekey (civil_from_days z2).
Proof.
  intros H. rewrite <- (Z.sub_add z1 z2), Z.add_comm.
  assert (0 <= z2 - z1) as Hk by lia. revert Hk.
  generalize (z2 - z1). apply natlike_ind; [rewrite Z.add_0_r; lia|].
  intros k Hk IH. pose proof (civil_from_days_step (z1 + k)).
  replace (z1 + Z.succ k) with (z1 + k + 1) by lia. lia.
Qed.

Lemma civil_from_days_lt z1 z2 :
  z1 < z2 -> datekey (civil_from_days z1) < datekey (civil_from_days z2).
Proof.
  intros H. pose proof (civil_from_days_step z1).
  pose proof (civil_from_days_mono (z1 + 1) z2 ltac:(lia)). lia.
Qed.

(** The days whose year is written in four digits: 0000-01-01 to
    9999-12-31. *)
Lemma civil_from_days_year z :
  -719528 <= z <= 2932896 ->
  let '(y, m, d) := civil_from_days z in 0 <= y <= 9999.
Proof.
  intros H.
  pose proof (civil_from_days_mono (-719528) z ltac:(lia)) as Hlo.
  pose proof (civil_from_days_mono z 2932896 ltac:(lia)) as Hhi.
  pose proof (civil_from_days_range z) as Hr.
  change (civil_from_days (-719528)) with (0, 1, 1) in Hlo.
  change (civil_from_days 2932896) with (9999, 12, 31) in Hhi.
  destruct (civil_from_days z) as [[y m] d]. unfold datekey in *. lia.
Qed.


(** *** Fixed-width decimal fields compare as the numbers do *)

Lemma digit_compare a b :
  0 <= a <= 9 -> 0 <= b <= 9 -> Ascii.compare (digit a) (digit b) = (a ?= b).
Proof.
  intros Ha Hb.
  assert (a = 0 \/ a = 1 \/ a = 2 \/ a = 3 \/ a = 4 \/ a = 5 \/ a = 6 \/ a = 7
          \/ a = 8 \/ a = 9) as Ha' by lia.
  assert (b = 0 \/ b = 1 \/ b = 2 \/ b = 3 \/ b = 4 \/ b = 5 \/ b = 6 \/ b = 7
          \/ b = 8 \/ b = 9) as Hb' by lia.
  clear Ha Hb.
  repeat (destruct Ha' as [-> | Ha']); try subst a;
    repeat (destruct Hb' as [-> | Hb']); try subst b; reflexivity.
Qed.

Lemma pad_length k n : String.length (pad k n) = k.
Proof. revert n. induction k as [|k IH]; intros n; simpl; [done|]. by rewrite IH. Qed.

Lemma pad_compare k : forall a b,
  0 <= a < 10 ^ Z.of_nat k -> 0 <= b < 10 ^ Z.of_nat k ->
  String.compare (pad k a) (pad k b) = (a ?= b).
Proof.
  induction k as [|k IH]; intros a b Ha Hb.
  - simpl in *. assert (a = 0) as -> by lia. assert (b = 0) as -> by lia. reflexivity.
  - rewrite Nat2Z.inj_succ, Z.pow_succ_r in Ha, Hb by lia.
    cbn [pad String.compare].
    set (P := 10 ^ Z.of_nat k) in *.
    assert (0 < P) as HP by (apply Z.pow_pos_nonneg; lia).
    pose proof (Z.div_mod a P ltac:(lia)) as Ea.
    pose proof (Z.div_mod b P ltac:(lia)) as Eb.
    pose proof (Z.mod_pos_bound a P HP) as Ra.
    pose proof (Z.mod_pos_bound b P HP) as Rb.
    assert (0 <= a / P <= 9) as Qa.
    { split; [apply Z.div_pos; lia|]. apply Z.lt_succ_r, Z.div_lt_upper_bound; lia. }
    assert (0 <= b / P <= 9) as Qb.
    { split; [apply Z.div_pos; lia|]. apply Z.lt_succ_r, Z.div_lt_upper_bound; lia. }
    rewrite !(Z.mod_small (_ / P) 10) by lia.
    rewrite digit_compare by lia.
    rewrite IH by lia.
    destruct (Z.compare_spec (a / P) (b / P)) as [Heq | Hlt | Hgt].
    + rewrite Heq in Ea.
      destruct (Z.compare_spec (a mod P) (b mod P)); symmetry;
        [apply Z.compare_eq_iff | apply Z.compare_lt_iff | apply Z.compare_gt_iff]; lia.
    + symmetry. apply Z.compare_lt_iff. nia.
    + symmetry. apply Z.compare_gt_iff. nia.
Qed.

Lemma compare_refl (s : string) : String.compare s s = Eq.
Proof.
  induction s as [|c s IH]; simpl; [done|].
  unfold Ascii.compare. by rewrite N.compare_refl.
Qed.

(** Two strings that start with fields of the same width compare by the
    fields first. *)
Lemma compare_append s1 : forall s2 t1 t2,
  String.length s1 = String.length s2 ->
  String.compare (s1 +:+ t1) (s2 +:+ t2) =
    match String.compare s1 s2 with
    | Eq => String.compare t1 t2
    | c => c
    end.
Proof.
  induction s1 as [|c1 s1 IH]; intros [|c2 s2] t1 t2 Hlen; simpl in *; try done.
  destruct (Ascii.compare c1 c2); [|done|done].
  apply IH. congruence.
Qed.

Lemma compare_field k a b sep r1 r2 :
  0 <= a < 10 ^ Z.of_nat k -> 0 <= b < 10 ^ Z.of_nat k ->
  String.compare (pad k a +:+ sep +:+ r1) (pad k b +:+ sep +:+ r2) =
    match a ?= b with
    | Eq => String.compare r1 r2
    | c => c
    end.
Proof.
  intros Ha Hb.
  rewrite compare_append by (by rewrite !pad_length).
  rewrite pad_compare by done.
  destruct (a ?= b); [|done|done].
  rewrite compare_append by done. by rewrite compare_refl.
Qed.


Lemma append_assoc (s1 s2 s3 : string) : (s1 +:+ s2) +:+ s3 = s1 +:+ s2 +:+ s3.
Proof.
  induction s1 as [|c s1 IH]; [done|].
  change (String c ((s1 +:+ s2) +:+ s3) = String c (s1 +:+ s2 +:+ s3)).
  by f_equal.
Qed.

(** The rendering, field by field. *)
Lemma toISOString_fields t :
  toISOString t =
    let '(y, m, d) := civil_from_days (t / msPerDay) in
    let msod := t mod msPerDay in
    year_string y +:+ "-" +:+ pad 2 m +:+ "-" +:+ pad 2 d +:+ "T"
    +:+ pad 2 (msod / 3600000) +:+ ":" +:+ pad 2 (msod / 60000 mod 60) +:+ ":"
    +:+ pad 2 (msod / 1000 mod 60) +:+ "." +:+ pad 3 (msod mod 1000) +:+ "Z" +:+ "".
Proof.
  unfold toISOString, time_string.
  destruct (civil_from_days (t / msPerDay)) as [[y m] d]. cbv beta iota zeta.
  by rewrite !append_assoc.
Qed.

Lemma day_of_time_range t :
  min_time <= t <= max_time -> -719528 <= t / msPerDay <= 2932896.
Proof.
  unfold min_time, max_time, msPerDay. intros H.
  Z.to_euclidean_division_equations; lia.
Qed.

(** A later instant has a later rendering, in the order of strings. *)
Lemma toISOString_lt t1 t2 :
  min_time <= t1 -> t1 < t2 -> t2 <= max_time ->
  String.compare (toISOString t1) (toISOString t2) = Lt.
Proof.
  intros Hlo Hlt Hhi.
  pose proof (day_of_time_range t1 ltac:(lia)) as Hd1.
  pose proof (day_of_time_range t2 ltac:(lia)) as Hd2.
  rewrite !toISOString_fields.
  pose proof (civil_from_days_year _ Hd1) as Hy1.
  pose proof (civil_from_days_year _ Hd2) as Hy2.
  pose proof (civil_from_days_range (t1 / msPerDay)) as Hr1.
  pose proof (civil_from_days_range (t2 / msPerDay)) as Hr2.
  assert (t1 / msPerDay < t2 / msPerDay
          \/ (t1 / msPerDay = t2 / msPerDay /\ t1 mod msPerDay < t2 mod msPerDay)) as Hcase.
  { unfold msPerDay. Z.to_euclidean_division_equations; lia. }
  pose proof (Z.mod_pos_bound t1 msPerDay eq_refl) as Hm1.
  pose proof (Z.mod_pos_bound t2 msPerDay eq_refl) as Hm2.
  assert (Hkey : t1 / msPerDay < t2 / msPerDay ->
                 datekey (civil_from_days (t1 / msPerDay))
                 < datekey (civil_from_days (t2 / msPerDay)))
    by apply civil_from_days_lt.
  destruct Hcase as [Hdays | [Hdays Hms]].
  - specialize (Hkey Hdays).
    destruct (civil_from_days (t1 / msPerDay)) as [[y1 m1] d1].
    destruct (civil_from_days (t2 / msPerDay)) as [[y2 m2] d2].
    cbv beta iota zeta. unfold year_string, datekey in *.
    replace ((0 <=? y1) && (y1 <=? 9999)) with true by (symmetry; apply andb_true_iff; lia).
    replace ((0 <=? y2) && (y2 <=? 9999)) with true by (symmetry; apply andb_true_iff; lia).
    rewrite (compare_field 4) by (simpl; lia).
    destruct (Z.compare_spec y1 y2); [ | reflexivity | exfalso; lia ].
    rewrite (compare_field 2) by (simpl; lia).
    destruct (Z.compare_spec m1 m2); [ | reflexivity | exfalso; lia ].
    rewrite (compare_field 2) by (simpl; lia).
    destruct (Z.compare_spec d1 d2); [ exfalso; lia | reflexivity | exfalso; lia ].
  - clear Hkey. rewrite <- Hdays.
    destruct (civil_from_days (t1 / msPerDay)) as [[y m] d].
    cbv beta iota zeta. unfold year_string.
    replace ((0 <=? y) && (y <=? 9999)) with true by (symmetry; apply andb_true_iff; lia).
    rewrite (compare_field 4), Z.compare_refl by (simpl; lia).
    rewrite (compare_field 2), Z.compare_refl by (simpl; lia).
    rewrite (compare_field 2), Z.compare_refl by (simpl; lia).
    unfold msPerDay in *.
    set (a := t1 mod 86400000) in *. set (b := t2 mod 86400000) in *.
    clearbody a b. clear - Hms Hm1 Hm2.
    rewrite (compare_field 2) by (simpl; Z.to_euclidean_division_equations; lia).
    destruct (Z.compare_spec (a / 3600000) (b / 3600000));
      [ | reflexivity | exfalso; Z.to_euclidean_division_equations; lia ].
    rewrite (compare_field 2) by (simpl; Z.to_euclidean_division_equations; lia).
    destruct (Z.compare_spec (a / 60000 mod 60) (b / 60000 mod 60));
      [ | reflexivity | exfalso; Z.to_euclidean_division_equations; lia ].
    rewrite (compare_field 2) by (simpl; Z.to_euclidean_division_equations; lia).
    destruct (Z.compare_spec (a / 1000 mod 60) (b / 1000 mod 60));
      [ | reflexivity | exfalso; Z.to_euclidean_division_equations; lia ].
    rewrite (compare_field 3) by (simpl; Z.to_euclidean_division_equations; lia).
    destruct (Z.compare_spec (a mod 1000) (b mod 1000));
      [ exfalso; Z.to_euclidean_division_equations; lia | reflexivity
      | exfalso; Z.to_euclidean_division_equations; lia ].
Qed.

End DateFacts.

(** ** Repeated health checks *)

Lemma timestamp_of_health X fu ctx rq :
  reaches_health X ctx rq ->
  timestamp_of (handle ctx (build_stack X fu) rq).1
  = Some (Date.toISOString (ctx_now ctx)).
Proof.
  intros (rq' & rs' & tr & Hup & Hm & Hp).
  rewrite (handle_through_upstream X fu ctx rq rq' rs' tr Hup).
  unfold dispatch. rewrite (run_from_cors_health X fu ctx rq' rs' Hm Hp).
  by rewrite healthHandler_response.
Qed.

Lemma toISOString_compare t1 t2 :
  Date.min_time <= t1 <= Date.max_time ->
  Date.min_time <= t2 <= Date.max_time ->
  String.compare (Date.toISOString t1) (Date.toISOString t2) = (t1 ?= t2).
Proof.
  intros H1 H2. destruct (Z.compare_spec t1 t2) as [-> | Hlt | Hgt].
  - apply DateFacts.compare_refl.
  - apply DateFacts.toISOString_lt; lia.
  - rewrite String.compare_antisym, DateFacts.toISOString_lt; [done | lia..].
Qed.


Lemma sample_reaches_health ctx hs :
  reaches_health Sample.world ctx (SampleRequests.request "GET" "/api/health" hs).
Proof.
  exists (SampleRequests.tagged (SampleRequests.request "GET" "/api/health" hs)),
         fresh_res, ["security"; "logging"; "express.json"; "express.urlencoded"].
  repeat split.
Qed.



(** ** More on the start-up sequence *)

(** The try block either goes through or fails; there is no third way. *)
Lemma init_outcome X (e : gmap string string) :
  (exists fs, InitSuccess X e fs) \/ (exists err, InitFailure X e err).
Proof.
  unfold InitSuccess.
  destruct (load_serviceAccount X e) as [sa|err] eqn:H1;
    [|right; exists err; by apply credential_unreadable].
  destruct (credential_cert X sa) as [cred|err] eqn:H2;
    [|right; exists err; by apply (credential_rejected _ _ _ sa)].
  destruct (admin_initializeApp X (Js.Obj [("credential", cred)])) as [[]|err] eqn:H3;
    [|right; exists err; by apply (initializeApp_failed _ _ _ sa cred)].
  destruct (admin_firestore X) as [fs|err] eqn:H4;
    [|right; exists err; by apply (firestore_failed _ _ _ sa cred)].
  left. exists fs, sa, cred. auto.
Qed.

(** [initializeFirebaseAdmin] never throws: whatever the Firebase client
    and the credential source do, it either returns, with [firestore]
    assigned the handle [admin.firestore()] returned and the success line
    logged, or ends the process with exit code 1, with [firestore] as it
    was and the error it caught logged.  Either way exactly one line is
    logged, and the environment, the application and the listener are
    not touched. *)
Theorem initializeFirebaseAdmin_never_throws X st :
  exists st',
    ((exists fs,
        admin_firestore X = Returns fs /\
        initializeFirebaseAdmin X st = Ret tt st' /\
        firestore st' = fs /\
        logged st' =
          logged st ++ [mkLog Info "Firebase Admin initialized successfully" Js.Undefined]) \/
     (exists err,
        InitFailure X (env st) err /\
        initializeFirebaseAdmin X st = Exited 1 st' /\
        firestore st' = firestore st /\
        logged st' =
          logged st ++ [mkLog Error "Error initializing Firebase Admin:" err])) /\
    env st' = env st /\ app st' = app st /\ listening st' = listening st.
Proof.
  destruct (init_outcome X (env st)) as [[fs H] | [err H]].
  - rewrite (initializeFirebaseAdmin_success X st fs H).
    destruct H as (sa & cred & _ & _ & _ & Hfs).
    eexists. split; [left; exists fs|]; simpl; auto.
  - rewrite (initializeFirebaseAdmin_failure X st err H).
    eexists. split; [right; exists err|]; simpl; auto.
Qed.

(** What [startServer] leaves behind when the [firestoreUtils] module
    throws: the call is outside every try block. *)
Lemma startServer_factory_throws X env0 fs err :
  let e := dotenv_config (dotenv_file X) env0 in
  InitSuccess X e fs ->
  firestoreUtils_module X fs = Throws err ->
  startServer X (boot X env0) =
    Thrown err {| env := e; firestore := fs;
                  logged :=
                    [mkLog Info "Environment variables loaded." Js.Undefined;
                     mkLog Info "Firebase Admin initialized successfully" Js.Undefined];
                  app := []; listening := None |}.
Proof.
  intros e Hinit Hfu.
  unfold startServer, loadEnv, boot. run_M.
  rewrite dotenv_config_idem. fold e.
  erewrite initializeFirebaseAdmin_success by exact Hinit.
  run_M. rewrite Hfu. reflexivity.
Qed.

(** An exception of the [firestoreUtils] module is not caught: it leaves
    [startServer] as it was thrown, after two information lines and no
    error line; nothing is registered and the listener is not started. *)
Theorem firestoreUtils_exception_escapes X env0 fs err :
  InitSuccess X (dotenv_config (dotenv_file X) env0) fs ->
  firestoreUtils_module X fs = Throws err ->
  exists st,
    startServer X (boot X env0) = Thrown err st /\
    Forall (fun entry => log_level entry = Info) (logged st) /\
    app st = [] /\ listening st = None.
Proof.
  intros Hinit Hfu. eexists. split.
  - by apply (startServer_factory_throws X env0 fs err).
  - simpl. repeat split. repeat constructor.
Qed.

(** The four ways [startServer] can end, and what each leaves behind. *)
Lemma startServer_outcome X env0 :
  let e := dotenv_config (dotenv_file X) env0 in
  (exists err, InitFailure X e err) \/
  (exists fs err, InitSuccess X e fs /\ firestoreUtils_module X fs = Throws err) \/
  (exists fs fu, InitSuccess X e fs /\ firestoreUtils_module X fs = Returns fu /\
                 facade_rejected fu = true) \/
  (exists fs fu, InitSuccess X e fs /\ firestoreUtils_module X fs = Returns fu /\
                 facade_rejected fu = false).
Proof.
  intros e. destruct (init_outcome X e) as [[fs H] | H]; [|by left].
  right. destruct (firestoreUtils_module X fs) as [fu|err] eqn:Hfu.
  - right. destruct (facade_rejected fu) eqn:Hrej; [left | right]; eauto.
  - left. eauto.
Qed.


(** The listener is started only after everything before it went
    through: if [app.listen] has been called when [startServer] ends, in
    whatever way it ends, then the store is initialised, the façade has
    passed the check, [startServer] has returned, and the whole stack is
    registered with the global error handler last. *)
Theorem listen_only_after_full_setup X env0 :
  is_Some (listening (final_state (startServer X (boot X env0)))) ->
  exists fs fu st,
    InitSuccess X (dotenv_config (dotenv_file X) env0) fs /\
    firestoreUtils_module X fs = Returns fu /\
    facade_rejected fu = false /\
    startServer X (boot X env0) = Ret tt st /\
    app st = build_stack X fu /\
    last (app st) = Some (UseError "errorHandler" errorHandler).
Proof.
  intros Hlisten.
  destruct (startServer_outcome X env0)
    as [[err H] | [(fs & err & H & Hfu) | [(fs & fu & H & Hfu & Hrej) | (fs & fu & H & Hfu & Hok)]]].
  - rewrite (startServer_init_failure X env0 err H) in Hlisten. by destruct Hlisten.
  - rewrite (startServer_factory_throws X env0 fs err H Hfu) in Hlisten.
    by destruct Hlisten.
  - rewrite (startServer_facade_rejected X env0 fs fu H Hfu Hrej) in Hlisten.
    by destruct Hlisten.
  - exists fs, fu. eexists. do 3 (split; [done|]).
    split; [by apply (startServer_success X env0 fs fu)|].
    split; [reflexivity|].
    simpl. unfold build_stack, from_cors. rewrite !last_app. reflexivity.
Qed.

Lemma or_port e : Js.or (getenv e "PORT") (Js.Num 5000) = listen_port e.
Proof.
  unfold Js.or, getenv, listen_port. destruct (e !! "PORT") as [p|]; simpl; [|done].
  by destruct (String.eqb p "").
Qed.

(** When nothing fails, [startServer] registers, in this order: what the
    security and the logging modules register, the two body parsers, the
    reflective CORS middleware, the CORS test endpoint, the six route
    groups (each built from the one façade), the health endpoint, and
    last the global error handler. *)
Theorem startServer_registration_order X env0 fs fu :
  InitSuccess X (dotenv_config (dotenv_file X) env0) fs ->
  firestoreUtils_module X fs = Returns fu ->
  facade_rejected fu = false ->
  exists st,
    startServer X (boot X env0) = Ret tt st /\
    firestore st = fs /\
    app st =
      security_layers X ++ logging_layers X
      ++ [Use "express.json" (express_json X);
          Use "express.urlencoded" (express_urlencoded X);
          Use "cors" corsMiddleware;
          Get "/api/cors-test" corsTestHandler;
          Mount "/api/auth" (route_module X "/api/auth" fu);
          Mount "/api/users" (route_module X "/api/users" fu);
          Mount "/api/sleep" (route_module X "/api/sleep" fu);
          Mount "/api/competitions" (route_module X "/api/competitions" fu);
          Mount "/api/notifications" (route_module X "/api/notifications" fu);
          Mount "/api/invitations" (route_module X "/api/invitations" fu);
          Get "/api/health" healthHandler;
          UseError "errorHandler" errorHandler].
Proof.
  intros Hinit Hfu Hok. eexists.
  split; [by apply (startServer_success X env0 fs fu)|].
  split; [reflexivity|].
  simpl. unfold build_stack, upstream, from_cors, route_groups, route_prefixes.
  simpl. by rewrite <- !app_assoc.
Qed.

(** When nothing fails, the listener is started on the PORT variable, or
    on 5000 when PORT is unset or empty, and the last line logged names
    that port and the mode (NODE_ENV, or 'development' when unset or
    empty). *)
Theorem startServer_listens_on_port X env0 fs fu :
  let e := dotenv_config (dotenv_file X) env0 in
  InitSuccess X e fs ->
  firestoreUtils_module X fs = Returns fu ->
  facade_rejected fu = false ->
  exists st,
    startServer X (boot X env0) = Ret tt st /\
    listening st = Some (listen_port e) /\
    last (logged st) =
      Some (mkLog Info
              ("Server running on port " +:+ JsString.to_string (listen_port e)
               +:+ " in " +:+ setting e "NODE_ENV" "development" +:+ " mode vibe")
              Js.Undefined) /\
    Forall (fun entry => log_level entry = Info) (logged st).
Proof.
  intros e Hinit Hfu Hok. eexists.
  split; [by apply (startServer_success X env0 fs fu)|].
  simpl. fold e. unfold server_running_message.
  rewrite or_port, or_getenv. repeat split. repeat constructor.
Qed.

(** What the two failures log before the exit: the initialisation
    failure logs the error it caught; the rejected façade is logged with
    the names of its properties, in their order, and with no names when
    it is falsy. *)
Theorem failure_diagnostics X env0 :
  let e := dotenv_config (dotenv_file X) env0 in
  (forall err, InitFailure X e err ->
     exists st, startServer X (boot X env0) = Exited 1 st /\
       last (logged st) = Some (mkLog Error "Error initializing Firebase Admin:" err)) /\
  (forall fs fu, InitSuccess X e fs -> firestoreUtils_module X fs = Returns fu ->
     facade_rejected fu = true ->
     exists st, startServer X (boot X env0) = Exited 1 st /\
       last (logged st) =
         Some (mkLog Error "firestoreUtils was not initialized correctly!"
                 (Js.Obj [("methods",
                           Js.Arr (map Js.Str
                                     (if Js.truthy fu then JsString.keys fu else [])))]))).
Proof.
  intros e. split.
  - intros err H. eexists. split; [by apply startServer_init_failure|]. reflexivity.
  - intros fs fu H Hfu Hrej. eexists.
    split; [by apply (startServer_facade_rejected X env0 fs fu)|].
    simpl. unfold methods_of, Js.or. by destruct (Js.truthy fu).
Qed.

Lemma sample_init_success X e :
  require_json X = require_json Sample.world ->
  credential_cert X = credential_cert Sample.world ->
  admin_initializeApp X = admin_initializeApp Sample.world ->
  admin_firestore X = admin_firestore Sample.world ->
  credentialSource e = LocalFile "./serviceAccountKey.json" ->
  InitSuccess X e SampleFailures.store.
Proof.
  intros H1 H2 H3 H4 Hsrc. unfold InitSuccess, load_serviceAccount.
  rewrite Hsrc, H1, H2, H3, H4. do 2 eexists. repeat split.
Qed.

Lemma firestoreUtils_exception_escapes_witness :
  exists st,
    startServer SampleFailures.world_module_throws
      (boot SampleFailures.world_module_throws Sample.development)
      = Thrown SampleFailures.module_error st /\
    Forall (fun entry => log_level entry = Info) (logged st) /\
    app st = [] /\ listening st = None.
Proof.
  apply (firestoreUtils_exception_escapes SampleFailures.world_module_throws
           Sample.development SampleFailures.store SampleFailures.module_error).
  - apply sample_init_success; reflexivity.
  - reflexivity.
Defined.


Lemma sample_startServer_returns :
  startServer Sample.world (boot Sample.world Sample.development)
  = Ret tt {| env := dotenv_config (dotenv_file Sample.world) Sample.development;
              firestore := SampleFailures.store;
              logged :=
                [mkLog Info "Environment variables loaded." Js.Undefined;
                 mkLog Info "Firebase Admin initialized successfully" Js.Undefined;
                 mkLog Info "firestoreUtils initialized successfully with methods:"
                   (methods_of Sample.facade);
                 mkLog Info
                   (server_running_message
                      (dotenv_config (dotenv_file Sample.world) Sample.development))
                   Js.Undefined];
              app := build_stack Sample.world Sample.facade;
              listening :=
                Some (Js.or (getenv (dotenv_config (dotenv_file Sample.world)
                                       Sample.development) "PORT") (Js.Num 5000)) |}.
Proof.
  apply (startServer_success Sample.world Sample.development SampleFailures.store).
  - apply sample_init_success; reflexivity.
  - reflexivity.
  - reflexivity.
Qed.

Lemma listen_only_after_full_setup_witness :
  exists fs fu st,
    InitSuccess Sample.world (dotenv_config (dotenv_file Sample.world) Sample.development) fs /\
    firestoreUtils_module Sample.world fs = Returns fu /\
    facade_rejected fu = false /\
    startServer Sample.world (boot Sample.world Sample.development) = Ret tt st /\
    app st = build_stack Sample.world fu /\
    last (app st) = Some (UseError "errorHandler" errorHandler).
Proof.
  apply (listen_only_after_full_setup Sample.world Sample.development).
  rewrite sample_startServer_returns. simpl. eauto.
Defined.

Lemma startServer_registration_order_witness :
  exists st,
    startServer Sample.world (boot Sample.world Sample.development) = Ret tt st /\
    firestore st = SampleFailures.store /\
    app st =
      security_layers Sample.world ++ logging_layers Sample.world
      ++ [Use "express.json" (express_json Sample.world);
          Use "express.urlencoded" (express_urlencoded Sample.world);
          Use "cors" corsMiddleware;
          Get "/api/cors-test" corsTestHandler;
          Mount "/api/auth" (route_module Sample.world "/api/auth" Sample.facade);
          Mount "/api/users" (route_module Sample.world "/api/users" Sample.facade);
          Mount "/api/sleep" (route_module Sample.world "/api/sleep" Sample.facade);
          Mount "/api/competitions" (route_module Sample.world "/api/competitions" Sample.facade);
          Mount "/api/notifications" (route_module Sample.world "/api/notifications" Sample.facade);
          Mount "/api/invitations" (route_module Sample.world "/api/invitations" Sample.facade);
          Get "/api/health" healthHandler;
          UseError "errorHandler" errorHandler].
Proof.
  apply (startServer_registration_order Sample.world Sample.development
           SampleFailures.store Sample.facade).
  - apply sample_init_success; reflexivity.
  - reflexivity.
  - reflexivity.
Defined.

Lemma startServer_listens_on_port_witness :
  exists st,
    startServer Sample.world (boot Sample.world Sample.development) = Ret tt st /\
    listening st = Some (Js.Str "8080") /\
    last (logged st) =
      Some (mkLog Info "Server running on port 8080 in development mode vibe" Js.Undefined) /\
    Forall (fun entry => log_level entry = Info) (logged st).
Proof.
  apply (startServer_listens_on_port Sample.world Sample.development
           SampleFailures.store Sample.facade).
  - apply sample_init_success; reflexivity.
  - reflexivity.
  - reflexivity.
Defined.

Lemma failure_diagnostics_witness :
  exists st,
    startServer Sample.world (boot Sample.world (Sample.production_with_blob "{")) = Exited 1 st /\
    last (logged st)
    = Some (mkLog Error "Error initializing Firebase Admin:" Sample.syntax_error).
Proof.
  apply (proj1 (failure_diagnostics Sample.world (Sample.production_with_blob "{"))).
  apply credential_unreadable. vm_compute. reflexivity.
Defined.

(** ** More on the request pipeline *)

Lemma run_mount_hit ctx p h rest rq rs :
  under_prefix p (req_path rq) = true ->
  run ctx (Mount p h :: rest) None rq rs = continue p (h ctx rq rs) (run ctx rest).
Proof. intros H. simpl. by rewrite H. Qed.

Lemma run_mount_miss ctx p h rest rq rs :
  under_prefix p (req_path rq) = false ->
  run ctx (Mount p h :: rest) None rq rs = run ctx rest None rq rs.
Proof. intros H. simpl. by rewrite H. Qed.

Lemma run_get_miss ctx p h rest rq rs :
  String.eqb (req_path rq) p = false ->
  run ctx (Get p h :: rest) None rq rs = run ctx rest None rq rs.
Proof. intros H. simpl. by rewrite H, andb_false_r. Qed.

(** With an error pending, route groups are passed over. *)
Lemma run_mounts_error ctx (f : string -> Handler) ps tail e rq rs :
  run ctx (map (fun q => Mount q (f q)) ps ++ tail) (Some e) rq rs
  = run ctx tail (Some e) rq rs.
Proof. induction ps as [|q ps IH]; [done|]. simpl. apply IH. Qed.

(** Among route groups of which only [p] matches the path, the request
    enters [p] and no group before it. *)
Lemma run_mounts_hit ctx (f : string -> Handler) tail rq rs p : forall ps,
  p ∈ ps ->
  (forall q, q ∈ ps -> under_prefix q (req_path rq) = true -> q = p) ->
  under_prefix p (req_path rq) = true ->
  exists rest,
    run ctx (map (fun q => Mount q (f q)) ps ++ tail) None rq rs
    = continue p (f p ctx rq rs) (run ctx (map (fun q => Mount q (f q)) rest ++ tail)).
Proof.
  induction ps as [|q ps IH]; intros Hin Honly Hp.
  - by apply elem_of_nil in Hin.
  - destruct (decide (q = p)) as [-> | Hne].
    + exists ps. simpl. by rewrite Hp.
    + apply elem_of_cons in Hin as [-> | Hin]; [done|].
      destruct IH as [rest Hrest]; [done | | done |].
      { intros q' Hq'. apply Honly. by apply elem_of_cons; right. }
      exists rest. cbn [map List.app]. rewrite run_mount_miss; [done|].
      destruct (under_prefix q (req_path rq)) eqn:Hq; [|done].
      exfalso. apply Hne, Honly; [by apply elem_of_cons; left | done].
Qed.

Lemma prefix_refl s : String.prefix s s = true.
Proof. induction s as [|c s IH]; [done|]. simpl. by destruct (ascii_dec c c). Qed.

Lemma prefix_append a : forall s t,
  String.prefix a s = true -> String.prefix a (s +:+ t) = true.
Proof.
  induction a as [|c a IH]; intros s t H; [by destruct (s +:+ t)|].
  destruct s as [|d s]; [simpl in H; discriminate|].
  change (String d s +:+ t) with (String d (s +:+ t)).
  simpl in *. destruct (ascii_dec c d); [by apply IH | done].
Qed.

(** Two prefixes of one string: one is a prefix of the other. *)
Lemma prefix_chain a : forall b s,
  String.prefix a s = true -> String.prefix b s = true ->
  String.prefix a b = true \/ String.prefix b a = true.
Proof.
  induction a as [|c a IH]; intros [|d b] [|x s] Ha Hb; simpl in *;
    try discriminate; auto.
  destruct (ascii_dec c x) as [-> |]; [|done].
  destruct (ascii_dec d x) as [-> |]; [|done].
  destruct (ascii_dec x x); [|done]. by apply (IH b s).
Qed.

Lemma under_prefix_slash p path :
  under_prefix p path = true -> String.prefix (p +:+ "/") (path +:+ "/") = true.
Proof.
  unfold under_prefix. intros [H | H]%orb_true_iff.
  - apply String.eqb_eq in H as ->. apply prefix_refl.
  - by apply prefix_append.
Qed.

Lemma under_one_route_prefix path p q :
  p ∈ route_prefixes -> q ∈ route_prefixes ->
  under_prefix p path = true -> under_prefix q path = true -> p = q.
Proof.
  intros Hp Hq Hpp Hqp.
  destruct (prefix_chain _ _ _ (under_prefix_slash p path Hpp)
              (under_prefix_slash q path Hqp)) as [H | H];
    unfold route_prefixes in *;
    repeat (apply elem_of_cons in Hp as [-> | Hp]);
    try (by apply elem_of_nil in Hp);
    repeat (apply elem_of_cons in Hq as [-> | Hq]);
    try (by apply elem_of_nil in Hq);
    first [reflexivity | vm_compute in H; discriminate].
Qed.

(** The two endpoints of [index.js] lie under no route prefix. *)
Lemma endpoints_outside_route_groups p :
  p ∈ route_prefixes ->
  under_prefix p "/api/cors-test" = false /\ under_prefix p "/api/health" = false.
Proof.
  unfold route_prefixes. intros Hp.
  repeat (apply elem_of_cons in Hp as [-> | Hp]); try (by apply elem_of_nil in Hp);
    split; reflexivity.
Qed.

(** A path lies under at most one of the six route prefixes, so a
    request enters at most one route group; and the paths of the two
    endpoints of [index.js] lie under none of them, so no route group
    sees a request for /api/cors-test or /api/health. *)
Theorem route_prefixes_exclusive path p q :
  p ∈ route_prefixes -> q ∈ route_prefixes ->
  (under_prefix p path = true -> under_prefix q path = true -> p = q) /\
  under_prefix p "/api/cors-test" = false /\
  under_prefix p "/api/health" = false.
Proof.
  intros Hp Hq. split.
  - by apply under_one_route_prefix.
  - by apply endpoints_outside_route_groups.
Qed.

Lemma route_prefixes_exclusive_witness :
  "/api/sleep" = "/api/sleep" /\
  under_prefix "/api/sleep" "/api/cors-test" = false /\
  under_prefix "/api/sleep" "/api/health" = false.
Proof.
  assert ("/api/sleep" ∈ route_prefixes) as H by (unfold route_prefixes; set_solver).
  destruct (route_prefixes_exclusive "/api/sleep/2024-05-01" "/api/sleep" "/api/sleep" H H)
    as [H1 H2].
  split; [apply H1; reflexivity | exact H2].
Defined.

Lemma corsMiddleware_next ctx rq rs :
  req_method rq <> "OPTIONS" ->
  corsMiddleware ctx rq rs = Next rq (after_cors rq rs).
Proof.
  intros H. rewrite corsMiddleware_cases.
  destruct (String.eqb_spec (req_method rq) "OPTIONS"); [done | reflexivity].
Qed.

(** The way of a request that is not a preflight and whose path lies
    under the route prefix [p]: through the CORS middleware, past the
    CORS test endpoint and the groups before [p], into [p]. *)
Lemma run_from_cors_route X fu ctx rq rs p :
  p ∈ route_prefixes ->
  req_method rq <> "OPTIONS" ->
  under_prefix p (req_path rq) = true ->
  exists rest,
    run ctx (from_cors X fu) None rq rs =
      let '(f, tr) :=
        continue p (route_module X p fu ctx rq (after_cors rq rs))
          (run ctx (map (fun q => Mount q (route_module X q fu)) rest
                    ++ [Get "/api/health" healthHandler;
                        UseError "errorHandler" errorHandler])) in
      (f, "cors" :: tr).
Proof.
  intros Hp Hm Hpath.
  destruct (run_mounts_hit ctx (fun q => route_module X q fu)
              [Get "/api/health" healthHandler; UseError "errorHandler" errorHandler]
              rq (after_cors rq rs) p route_prefixes Hp) as [rest Hrest]; [|done|].
  { intros q Hq Hqp. by apply (under_one_route_prefix (req_path rq)). }
  exists rest. unfold from_cors, route_groups.
  change ([Use "cors" corsMiddleware; Get "/api/cors-test" corsTestHandler] ++ ?l)
    with (Use "cors" corsMiddleware :: Get "/api/cors-test" corsTestHandler :: l).
  rewrite run_use, corsMiddleware_next by done. cbn [continue].
  rewrite run_get_miss, Hrest; [done|].
  destruct (String.eqb_spec (req_path rq) "/api/cors-test") as [Heq|]; [|done].
  rewrite Heq in Hpath.
  destruct (endpoints_outside_route_groups p Hp) as [H _]. congruence.
Qed.

(** What becomes of a request that enters a route group.  If the group
    sends a response, that response is the answer and no later layer is
    entered.  If the group raises an error (a truthy value other than
    the router's two signals), every later group and the health endpoint
    are passed over and the global error handler is entered with the
    request and the response as the group left them: its JSON response
    is the answer when [res.status] accepts the code, and Express's
    error page is when it does not.  If the group calls
    [next('router')], no later layer is entered, the error handler
    included, and Express answers 404. *)
Theorem route_group_outcome X fu ctx rq rs p :
  p ∈ route_prefixes ->
  req_method rq <> "OPTIONS" ->
  under_prefix p (req_path rq) = true ->
  (forall r,
      route_module X p fu ctx rq (after_cors rq rs) = Sent r ->
      dispatch ctx (from_cors X fu) None rq rs = (r, ["cors"; p])) /\
  (forall e rq' rs',
      route_module X p fu ctx rq (after_cors rq rs) = NextErr e rq' rs' ->
      Js.truthy e = true -> Js.is_str e "route" = false -> Js.is_str e "router" = false ->
      dispatch ctx (from_cors X fu) None rq rs
        = (error_answer ctx e rq' rs', ["cors"; p; "errorHandler"]) /\
      (accepts_status (Js.or (Js.get e "statusCode") (Js.Num 500)) = true ->
       errorHandler ctx e rq' rs' = Sent (error_answer ctx e rq' rs')) /\
      (accepts_status (Js.or (Js.get e "statusCode") (Js.Num 500)) = false ->
       body (error_answer ctx e rq' rs')
         = ErrorPage (invalid_status_code (Js.or (Js.get e "statusCode") (Js.Num 500))))) /\
  (forall rq' rs',
      route_module X p fu ctx rq (after_cors rq rs) = NextErr (Js.Str "router") rq' rs' ->
      exists resp,
        dispatch ctx (from_cors X fu) None rq rs = (resp, ["cors"; p]) /\
        status resp = Js.Num 404 /\
        (forall h, h ∈ cors_headers -> headers resp !! h = res_headers rs' !! h)).
Proof.
  intros Hp Hm Hpath.
  destruct (run_from_cors_route X fu ctx rq rs p Hp Hm Hpath) as [rest Hrun].
  unfold dispatch. rewrite Hrun. split; [|split].
  - intros r Hr. by rewrite Hr.
  - intros e rq' rs' Hr He Hroute Hrouter. rewrite Hr. cbn [continue].
    unfold layerError. rewrite Hroute, Hrouter, He.
    rewrite run_mounts_error. cbn [run].
    rewrite errorHandler_cases. unfold error_answer. cbn zeta.
    destruct (accepts_status (Js.or (Js.get e "statusCode") (Js.Num 500)));
      repeat split; try reflexivity; discriminate.
  - intros rq' rs' Hr. rewrite Hr. eexists. split; [reflexivity|].
    split; [reflexivity|]. intros h Hh. simpl.
    by apply without_content_headers_lookup, cors_header_no_content_header.
Qed.

Lemma route_group_outcome_witness :
  let rq := SampleRequests.request "GET" "/api/users/7" ∅ in
  dispatch SampleRequests.prod (from_cors Sample.world Sample.facade) None rq fresh_res
  = (error_answer SampleRequests.prod Sample.not_found rq (after_cors rq fresh_res),
     ["cors"; "/api/users"; "errorHandler"]).
Proof.
  intros rq.
  apply (proj1 (proj2 (route_group_outcome Sample.world Sample.facade SampleRequests.prod rq
                  fresh_res "/api/users" ltac:(unfold route_prefixes; set_solver)
                  ltac:(discriminate) eq_refl)) Sample.not_found rq (after_cors rq fresh_res));
    reflexivity.
Defined.

(** A request that is not a preflight leaves the reflective CORS
    middleware unchanged; the status of the response is untouched, every
    header other than the five CORS headers keeps its value, and the
    five are set to the middleware's values whatever an earlier stage
    had put there. *)
Theorem cors_passes_on ctx rq rs :
  req_method rq <> "OPTIONS" ->
  exists rs',
    corsMiddleware ctx rq rs = Next rq rs' /\
    res_status rs' = res_status rs /\
    (forall k, k ∉ cors_headers -> res_headers rs' !! k = res_headers rs !! k) /\
    res_headers rs' !! "Access-Control-Allow-Methods"
      = Some "GET, POST, PUT, DELETE, OPTIONS" /\
    res_headers rs' !! "Access-Control-Allow-Headers"
      = Some "Content-Type, Authorization, DNT, User-Agent, X-Requested-With, If-Modified-Since, Cache-Control, Range" /\
    res_headers rs' !! "Access-Control-Allow-Credentials" = Some "true" /\
    res_headers rs' !! "Access-Control-Expose-Headers"
      = Some "Content-Length, Content-Range".
Proof.
  intros Hm. exists (after_cors rq rs).
  split; [by apply corsMiddleware_next|]. split; [reflexivity|].
  unfold after_cors, with_cors_headers, cors_headers. simpl.
  split.
  - intros k Hk. rewrite !lookup_insert_ne; [done|..]; intros <-; apply Hk; set_solver.
  - repeat split; by simplify_map_eq.
Qed.

Lemma cors_passes_on_witness :
  let rq := SampleRequests.request "POST" "/api/sleep" SampleRequests.from_localhost in
  let rs := res_header "Access-Control-Allow-Methods" (Js.Str "GET")
              (res_header "X-Request-Id" (Js.Str "req-1") fresh_res) in
  exists rs',
    corsMiddleware SampleRequests.prod rq rs = Next rq rs' /\
    res_status rs' = res_status rs /\
    (forall k, k ∉ cors_headers -> res_headers rs' !! k = res_headers rs !! k) /\
    res_headers rs' !! "Access-Control-Allow-Methods"
      = Some "GET, POST, PUT, DELETE, OPTIONS" /\
    res_headers rs' !! "Access-Control-Allow-Headers"
      = Some "Content-Type, Authorization, DNT, User-Agent, X-Requested-With, If-Modified-Since, Cache-Control, Range" /\
    res_headers rs' !! "Access-Control-Allow-Credentials" = Some "true" /\
    res_headers rs' !! "Access-Control-Expose-Headers"
      = Some "Content-Length, Content-Range".
Proof.
  intros rq rs. apply (cors_passes_on SampleRequests.prod rq rs). discriminate.
Defined.

(** The way of a GET /api/cors-test request through the part of the
    stack [index.js] registers. *)
Lemma run_from_cors_cors_test X fu ctx rq rs :
  req_method rq = "GET" -> req_path rq = "/api/cors-test" ->
  run ctx (from_cors X fu) None rq rs =
    (Done {| status := Js.Num 200;
             headers := with_cors_headers rq (res_headers rs);
             body := JsonBody (Js.Obj
               [("status", Js.Str "ok");
                ("message", Js.Str "CORS is properly configured");
                ("origin", Js.Str (origin_or rq "No origin header"));
                ("timestamp", Js.Str (Date.toISOString (ctx_now ctx)))]) |},
     ["cors"; "/api/cors-test"]).
Proof.
  intros Hm Hp. unfold from_cors.
  change ([Use "cors" corsMiddleware; Get "/api/cors-test" corsTestHandler] ++ ?l)
    with (Use "cors" corsMiddleware :: Get "/api/cors-test" corsTestHandler :: l).
  rewrite run_use, corsMiddleware_next by (rewrite Hm; discriminate).
  cbn [continue run]. rewrite Hm, Hp. cbn [is_get String.eqb Ascii.eqb Bool.eqb orb andb].
  unfold corsTestHandler. rewrite or_origin. reflexivity.
Qed.



(** A thrown string, number or boolean has none of the properties the
    global error handler reads: the response is a 500 with the fallback
    text, the thrown value itself is not shown, and the JSON text has no
    stack field in any mode. *)
Theorem thrown_primitive_is_500 ctx v rq rs :
  Js.is_primitive v = true ->
  exists resp props,
    errorHandler ctx v rq rs = Sent resp /\
    status resp = Js.Num 500 /\
    headers resp = res_headers rs /\
    body resp = JsonBody (Js.Obj props) /\
    Js.assoc "error" props = Js.Str "Internal server error" /\
    Js.assoc "requestId" props = req_id rq /\
    Js.written "stack" props = false.
Proof.
  intros Hv.
  assert (Js.get v "statusCode" = Js.Undefined) as Hcode by (by destruct v).
  eexists. exists (errorResponse_of ctx v rq).
  split; [apply errorHandler_response; by rewrite Hcode|].
  destruct (errorResponse_fields ctx v rq) as (He & Hi & _ & _ & Hks & Hs).
  unfold Js.written. rewrite He, Hi, Hks, Hs, Hcode.
  destruct v; try discriminate; simpl;
    repeat split; by destruct (is_production (ctx_env ctx)).
Qed.

Lemma thrown_primitive_is_500_witness :
  exists resp props,
    errorHandler SampleRequests.dev (Js.Str "boom")
      (SampleRequests.request "GET" "/api/sleep" ∅) fresh_res = Sent resp /\
    status resp = Js.Num 500 /\
    headers resp = res_headers fresh_res /\
    body resp = JsonBody (Js.Obj props) /\
    Js.assoc "error" props = Js.Str "Internal server error" /\
    Js.assoc "requestId" props = req_id (SampleRequests.request "GET" "/api/sleep" ∅) /\
    Js.written "stack" props = false.
Proof.
  apply (thrown_primitive_is_500 SampleRequests.dev (Js.Str "boom")). reflexivity.
Defined.

(** ** The allow-list of the health report *)

Lemma split_on_nonempty sep s : split_on sep s <> [].
Proof.
  destruct s as [|c s]; simpl; [done|].
  destruct (Ascii.eqb c sep); [done|]. by destruct (split_on sep s).
Qed.

Lemma join_split_on sep s : join_with (String sep "") (split_on sep s) = s.
Proof.
  induction s as [|c s IH]; [done|]. cbn [split_on].
  pose proof (split_on_nonempty sep s) as Hne.
  destruct (Ascii.eqb_spec c sep) as [-> | Hc].
  - destruct (split_on sep s) as [|w ws]; [done|].
    change (join_with (String sep "") ("" :: w :: ws))
      with ("" +:+ String sep "" +:+ join_with (String sep "") (w :: ws)).
    rewrite IH. reflexivity.
  - destruct (split_on sep s) as [|w ws]; [done|].
    rewrite <- IH. destruct ws as [|w' ws]; reflexivity.
Qed.

Lemma split_on_pieces sep s :
  Forall (fun w => has_char sep w = false) (split_on sep s).
Proof.
  induction s as [|c s IH]; simpl; [by repeat constructor|].
  destruct (Ascii.eqb_spec c sep) as [-> | Hc]; [by constructor|].
  destruct (split_on sep s) as [|w ws]; simpl.
  - repeat constructor. simpl. by apply orb_false_iff, conj; [apply Ascii.eqb_neq|].
  - inversion IH as [|? ? Hw Hws]; subst. constructor; [|done].
    simpl. by apply orb_false_iff, conj; [apply Ascii.eqb_neq|].
Qed.

(** The allow-list of the health report is the configured list cut at
    its commas and nothing else: it has at least one entry, no entry
    holds a comma, and joining the entries with commas gives the
    configured list back, character for character (blanks around an
    origin and empty entries are kept). *)
Theorem allowedOrigins_entries (e : gmap string string) :
  exists entries,
    allowedOrigins e = Js.Arr (map Js.Str entries) /\
    entries <> [] /\
    Forall (fun w => has_char "," w = false) entries /\
    join_with "," entries = configured_origins e.
Proof.
  exists (split_on "," (configured_origins e)).
  split; [apply allowedOrigins_list|].
  split; [apply split_on_nonempty|].
  split; [apply split_on_pieces | apply join_split_on].
Qed.

Example allowedOrigins_keeps_blanks :
  allowedOrigins {["ALLOWED_ORIGINS" := "https://a.example, https://b.example,";
                   "NODE_ENV" := "production"]}
  = Js.Arr [Js.Str "https://a.example"; Js.Str " https://b.example"; Js.Str ""].
Proof. vm_compute. reflexivity. Qed.

Lemma setting_insert_ne (e : gmap string string) k k' v d :
  k <> k' -> setting (<[k := v]> e) k' d = setting e k' d.
Proof. intros H. unfold setting. by rewrite lookup_insert_ne. Qed.

Lemma is_production_insert_ne (e : gmap string string) k v :
  k <> "NODE_ENV" -> is_production (<[k := v]> e) = is_production e.
Proof. intros H. unfold is_production, getenv. by rewrite lookup_insert_ne. Qed.

(** Each mode reads its own variable only: in production the list of
    DEV_ALLOWED_ORIGINS has no effect on the reported allow-list, and in
    the other modes the list of ALLOWED_ORIGINS has none. *)
Theorem allowedOrigins_mode_separation (e : gmap string string) v :
  allowedOrigins
    (<[(if is_production e then "DEV_ALLOWED_ORIGINS" else "ALLOWED_ORIGINS") := v]> e)
  = allowedOrigins e.
Proof.
  rewrite !allowedOrigins_list.
  destruct (is_production e) eqn:Hp.
  - rewrite is_production_insert_ne, Hp by done. by rewrite setting_insert_ne.
  - rewrite is_production_insert_ne, Hp by done. by rewrite setting_insert_ne.
Qed.

(** ** The shape of the timestamps *)

Lemma length_append (s1 s2 : string) :
  String.length (s1 +:+ s2) = (String.length s1 + String.length s2)%nat.
Proof.
  induction s1 as [|c s1 IH]; [done|].
  change (String c s1 +:+ s2) with (String c (s1 +:+ s2)). simpl. by rewrite IH.
Qed.

Lemma toISOString_shape t :
  Date.min_time <= t <= Date.max_time ->
  exists y m d h mi sec ms,
    0 <= y <= 9999 /\ 1 <= m <= 12 /\ 1 <= d <= 31 /\
    0 <= h <= 23 /\ 0 <= mi <= 59 /\ 0 <= sec <= 59 /\ 0 <= ms <= 999 /\
    Date.toISOString t =
      Date.pad 4 y +:+ "-" +:+ Date.pad 2 m +:+ "-" +:+ Date.pad 2 d +:+ "T"
      +:+ Date.pad 2 h +:+ ":" +:+ Date.pad 2 mi +:+ ":" +:+ Date.pad 2 sec
      +:+ "." +:+ Date.pad 3 ms +:+ "Z".
Proof.
  intros Ht.
  pose proof (DateFacts.day_of_time_range t Ht) as Hd.
  pose proof (DateFacts.civil_from_days_year _ Hd) as Hy.
  pose proof (DateFacts.civil_from_days_range (t / Date.msPerDay)) as Hr.
  pose proof (Z.mod_pos_bound t Date.msPerDay eq_refl) as Hm.
  rewrite DateFacts.toISOString_fields.
  destruct (Date.civil_from_days (t / Date.msPerDay)) as [[y m] d]. cbv beta iota zeta.
  exists y, m, d, (t mod Date.msPerDay / 3600000), (t mod Date.msPerDay / 60000 mod 60),
    (t mod Date.msPerDay / 1000 mod 60), (t mod Date.msPerDay mod 1000).
  unfold Date.year_string.
  replace ((0 <=? y) && (y <=? 9999)) with true by (symmetry; apply andb_true_iff; lia).
  unfold Date.msPerDay in *.
  repeat split; try lia; try (Z.to_euclidean_division_equations; lia).
Qed.



(** ** What the error response discloses, and errors of the earlier stages *)

(** The response of the global error handler depends on three
    properties of the error only ([statusCode], [message], [stack]), and
    in production on the first two only: nothing else the error carries
    reaches the client, and in production neither does the stack. *)
Theorem error_response_discloses ctx e e' rq rs :
  Js.get e "statusCode" = Js.get e' "statusCode" ->
  Js.get e "message" = Js.get e' "message" ->
  is_production (ctx_env ctx) = true \/ Js.get e "stack" = Js.get e' "stack" ->
  errorHandler ctx e rq rs = errorHandler ctx e' rq rs.
Proof.
  intros Hc Hm Hs. unfold errorHandler, errorResponse_of. rewrite Hc, Hm.
  destruct Hs as [-> | ->]; reflexivity.
Qed.

Lemma error_response_discloses_witness :
  errorHandler SampleRequests.prod
    (Js.Obj [("statusCode", Js.Num 404); ("message", Js.Str "No such user");
             ("stack", Js.Str "Error: No such user\n    at users.js:10");
             ("sql", Js.Str "SELECT * FROM users WHERE id = 7")])
    (SampleRequests.request "GET" "/api/users/7" ∅) fresh_res
  = errorHandler SampleRequests.prod SampleRequests.plain_object
      (SampleRequests.request "GET" "/api/users/7" ∅) fresh_res.
Proof.
  apply (error_response_discloses SampleRequests.prod).
  - reflexivity.
  - reflexivity.
  - left. reflexivity.
Defined.

(** An error raised by a stage registered ahead of the reflective CORS
    middleware (a body parser rejecting the payload, say) and not handled
    there goes straight to the global error handler: the CORS middleware
    is not entered, so each of the five CORS headers is on the answer
    only if an earlier stage had set it, and with that stage's value.
    This holds for the handler's own JSON response, which carries exactly
    the headers of the earlier stages, and for Express's error page when
    the handler throws. *)
Theorem upstream_error_skips_cors X fu ctx rq e rq' rs' tr :
  run ctx (upstream X) None rq fresh_res = (Pending (Some e) rq' rs', tr) ->
  handle ctx (build_stack X fu) rq = (error_answer ctx e rq' rs', tr ++ ["errorHandler"]) /\
  (forall h, h ∈ cors_headers ->
     headers (error_answer ctx e rq' rs') !! h = res_headers rs' !! h) /\
  (accepts_status (Js.or (Js.get e "statusCode") (Js.Num 500)) = true ->
   errorHandler ctx e rq' rs' = Sent (error_answer ctx e rq' rs') /\
   headers (error_answer ctx e rq' rs') = res_headers rs').
Proof.
  intros Hup. split; [|split].
  - unfold handle, dispatch, build_stack.
    rewrite run_app, Hup.
    pose proof (dispatch_error X fu ctx e rq' rs') as Hd. unfold dispatch in Hd.
    destruct (run ctx (from_cors X fu) (Some e) rq' rs') as [f tr'].
    by inversion Hd.
  - intros h Hh. unfold error_answer. cbn zeta.
    destruct (accepts_status _); [reflexivity|].
    simpl. by apply without_content_headers_lookup, cors_header_no_content_header.
  - intros Hcode. rewrite errorHandler_cases.
    unfold error_answer. cbn zeta. rewrite Hcode. split; reflexivity.
Qed.

Lemma upstream_error_skips_cors_witness :
  let rq := SampleRequests.request "POST" "/api/sleep" SampleRequests.from_localhost in
  handle SampleRequests.prod (build_stack SampleUpstream.world Sample.facade) rq
  = (error_answer SampleRequests.prod SampleUpstream.malformed
       (SampleRequests.tagged rq) fresh_res,
     ["security"; "logging"; "express.json"] ++ ["errorHandler"]).
Proof.
  intros rq.
  apply (proj1 (upstream_error_skips_cors SampleUpstream.world Sample.facade
                  SampleRequests.prod rq SampleUpstream.malformed
                  (SampleRequests.tagged rq) fresh_res
                  ["security"; "logging"; "express.json"] eq_refl)).
Defined.
